(** * hostfxr: the resolution-and-dispatch layer of the .NET host

    A shallow embedding of [src/corehost/cli/fxr/hostfxr.cpp].

    The functions of that file do little computation of their own: they
    call collaborators (the diagnostics sink [trace], the platform layer
    [pal], the hosting-policy module's entry points, the SDK resolver, the
    muxer and the caller's callbacks) and decide, from what these answer,
    what to call next and what to return.  The embedding keeps exactly that:
    a function of the source is a program of type [prog A], a tree whose
    nodes are collaborator calls and whose branches are indexed by the
    collaborator's answer.  Running a program against an environment gives
    the trace of the calls it made, each with its answer, and the value it
    returned; the properties below are read off these traces, for every
    environment. *)

From Stdlib Require Import ZArith List String Ascii Bool Lia Sorted.
Import ListNotations.

Local Open Scope string_scope.
Local Open Scope list_scope.
Local Open Scope Z_scope.

(** ** Machine integers *)

(** Conversion of a mathematical integer to [int32_t] (two's complement
    wrap-around) and to [size_t] (64-bit unsigned). *)
Definition int32_of (z : Z) : Z := (z + 2 ^ 31) mod 2 ^ 32 - 2 ^ 31.
Definition size_t_of (z : Z) : Z := z mod 2 ^ 64.

Definition INT32_MAX : Z := 2 ^ 31 - 1.
Definition INT32_MIN : Z := - 2 ^ 31.

(** ** pal.h: characters, strings, handles *)

(** [pal::char_t] (a one-byte [char] off Windows) and [pal::string_t]. *)
Abbreviation char_t := ascii.
Abbreviation string_t := string.

(** The terminator written by [buffer[length] = 0]. *)
Definition NUL : char_t := Ascii.zero.

(** [pal::string_t::size()]. *)
Definition size (s : string_t) : Z := Z.of_nat (String.length s).

(** [pal::string_t::empty()]. *)
Definition empty (s : string_t) : bool :=
  match s with EmptyString => true | String _ _ => false end.

(** A [pal::char_t*] argument that names a path: [None] is [nullptr]. *)
Definition c_str_t := option string_t.

(** A caller's [pal::char_t buffer[]]: [None] is [nullptr], [Some cells] is
    a pointer to an array holding [cells]. *)
Definition buffer_t := option (list char_t).

(** An [int32_t*] output: [None] is [nullptr], [Some v] points to a cell
    holding [v]. *)
Definition int32_ptr := option Z.

(** [pal::dll_t], the OS handle of a loaded module. *)
Definition dll_t := Z.

(** The address of a function: a symbol resolved by [pal::get_symbol] or a
    callback handed in by the caller.  A nullable function pointer is an
    [option proc_t]. *)
Definition proc_t := positive.

(** Opaque collaborator objects: [corehost_init_t*] and the
    [host_interface_t] it exposes. *)
Definition corehost_init_t := Z.
Definition host_interface_t := Z.

(** ** error_codes.h *)

(** The enumerators of [StatusCode] that hostfxr.cpp names. *)
Inductive StatusCode : Set :=
| Success
| InvalidArgFailure
| CoreHostLibLoadFailure
| CoreHostLibMissingFailure
| CoreHostEntryPointFailure
| SdkResolverResolveFailure.

Definition StatusCode_eqb (a b : StatusCode) : bool :=
  match a, b with
  | Success, Success
  | InvalidArgFailure, InvalidArgFailure
  | CoreHostLibLoadFailure, CoreHostLibLoadFailure
  | CoreHostLibMissingFailure, CoreHostLibMissingFailure
  | CoreHostEntryPointFailure, CoreHostEntryPointFailure
  | SdkResolverResolveFailure, SdkResolverResolveFailure => true
  | _, _ => false
  end.

(** ** hostfxr.cpp: the result keys of [hostfxr_resolve_sdk2] *)

Inductive hostfxr_resolve_sdk2_result_key_t : Set :=
| resolved_sdk_dir   (* = 0 *)
| global_json_path.  (* = 1 *)

Definition key_eqb (a b : hostfxr_resolve_sdk2_result_key_t) : bool :=
  match a, b with
  | resolved_sdk_dir, resolved_sdk_dir
  | global_json_path, global_json_path => true
  | _, _ => false
  end.

(** [hostfxr_resolve_sdk2_flags_t::disallow_prerelease = 0x1]. *)
Definition disallow_prerelease : Z := 1.

(** ** Collaborator data *)

(** Modelled from the spec: fx_ver.h is not among the sources.  A parsed
    semantic version is major.minor.patch plus an optional prerelease
    label (the empty label stands for a release). *)
Record fx_ver_t : Set := mk_fx_ver {
  ver_major : Z;
  ver_minor : Z;
  ver_patch : Z;
  ver_pre : string_t
}.

(** Modelled from the spec: sdk_info.h is not among the sources.  An SDK
    entry is a discovered SDK's absolute path and its parsed version;
    hostfxr.cpp reads the field [full_path] only. *)
Record sdk_info : Set := mk_sdk_info {
  version : fx_ver_t;
  full_path : string_t
}.

(** Modelled from the spec: host_startup_info.h is not among the sources.
    The startup context is the host path, the runtime root and the
    application path. *)
Record host_startup_info_t : Set := mk_host_startup_info {
  host_path : string_t;
  dotnet_root : string_t;
  app_path : string_t
}.

(** ** Collaborator calls *)

(** Every call hostfxr.cpp makes outside itself.  Arguments are the values
    passed; the answer type of each call is given by [resp]. *)
Inductive call : Set :=
(* trace.h *)
| trace_setup
| trace_info (format : string) (args : list string_t)
| trace_error (format : string) (args : list string_t)
| trace_flush
(* utils.h, pal.h *)
| library_exists_in_dir (lib_dir lib_name : string_t)
| pal_load_library (path : string_t)
| pal_get_symbol (library : dll_t) (name : string)
| pal_unload_library (library : dll_t)
(* libhost.h *)
| get_host_init_data (init : corehost_init_t)
(* the entry points of the hosting-policy module, called through the
   pointers [pal::get_symbol] returned *)
| corehost_load (fn : proc_t) (init : host_interface_t)
| corehost_main (fn : proc_t) (argc : Z) (argv : list string_t)
| corehost_main_with_output_buffer
    (fn : proc_t) (argc : Z) (argv : list string_t)
    (buffer : buffer_t) (buffer_size : Z) (required_buffer_size : int32_ptr)
| corehost_unload (fn : proc_t)
(* sdk_resolver.h: the three-argument and the five-argument overload *)
| resolve_sdk_dotnet_path (dotnet_root cwd : string_t)
| resolve_sdk_dotnet_path_ex
    (dotnet_root cwd : string_t) (disallow_prerelease : bool)
(* sdk_info.h *)
| get_all_sdk_infos (exe_dir : string_t)
(* the caller's callbacks *)
| resolve_sdk2_result
    (fn : proc_t) (key : hostfxr_resolve_sdk2_result_key_t) (value : string_t)
| get_available_sdks_result
    (fn : proc_t) (sdk_count : Z) (sdk_dirs : option (list string_t))
(* host_startup_info.h, fx_muxer.h *)
| host_startup_info_parse (argc : Z) (argv : list string_t)
| fx_muxer_execute
    (command : string_t) (argc : Z) (argv : list string_t)
    (startup_info : host_startup_info_t)
    (buffer : buffer_t) (buffer_size : Z) (required_buffer_size : int32_ptr).

(** What each call answers.  A [bool] result with an output parameter is
    the pair of both, or an [option] where the output is only read on
    [true]. *)
Definition resp (c : call) : Set :=
  match c with
  | trace_setup | trace_info _ _ | trace_error _ _ | trace_flush => unit
  | library_exists_in_dir _ _ => option string_t      (* [host_path] *)
  | pal_load_library _ => option dll_t                (* [*h_host] *)
  | pal_get_symbol _ _ => option proc_t
  | pal_unload_library _ => unit
  | get_host_init_data _ => host_interface_t
  | corehost_load _ _ => Z
  | corehost_main _ _ _ => Z
  | corehost_main_with_output_buffer _ _ _ _ _ _ => Z
  | corehost_unload _ => Z
  | resolve_sdk_dotnet_path _ _ => bool * string_t    (* [cli_sdk] *)
  | resolve_sdk_dotnet_path_ex _ _ _ =>
      bool * string_t * string_t   (* [resolved_sdk_dir], [global_json_path] *)
  | get_all_sdk_infos _ => list sdk_info              (* [sdk_infos] *)
  | resolve_sdk2_result _ _ _ => unit
  | get_available_sdks_result _ _ _ => unit
  | host_startup_info_parse _ _ => host_startup_info_t
  | fx_muxer_execute _ _ _ _ _ _ _ => Z
  end.

(** ** Programs *)

(** A program returns ([Ret]), calls a collaborator and goes on with its
    answer ([Do]), or does not return normally ([Crash]): a call through a
    null function pointer, a read of an uninitialised handle, a store
    outside the caller's array or a failed [assert]. *)
Inductive prog (A : Type) : Type :=
| Ret (a : A)
| Do (c : call) (k : resp c -> prog A)
| Crash.

Arguments Ret {A} a.
Arguments Do {A} c k.
Arguments Crash {A}.

Fixpoint bind {A B : Type} (p : prog A) (f : A -> prog B) : prog B :=
  match p with
  | Ret a => f a
  | Do c k => Do c (fun r => bind (k r) f)
  | Crash => Crash
  end.

Definition invoke (c : call) : prog (resp c) := Do c Ret.

Declare Scope prog_scope.
Delimit Scope prog_scope with prog.
Notation "x <- p ;; q" := (bind p (fun x => q))
  (at level 61, p at next level, right associativity) : prog_scope.
Notation "' pat <- p ;; q" := (bind p (fun x => match x with pat => q end))
  (at level 61, pat pattern, p at next level, right associativity) : prog_scope.
Notation "p ;; q" := (bind p (fun _ => q))
  (at level 61, right associativity) : prog_scope.
Local Open Scope prog_scope.

(** [assert(b)]. *)
Definition assert (b : bool) : prog unit := if b then Ret tt else Crash.

(** ** Running a program *)

(** A call together with its answer. *)
Definition event : Set := { c : call & resp c }.
Definition ev (c : call) (r : resp c) : event := existT resp c r.
Definition trace : Set := list event.

(** The environment: how the collaborators answer, given a state [W] of
    the world (filesystem, loaded modules, the module's own state) that
    each call may change. *)
Definition handler (W : Type) : Type := forall c : call, W -> resp c * W.

(** [run h p w] is the calls [p] makes, in order and with their answers,
    together with the value returned and the final world when [p] returns,
    and [None] when it crashes. *)
Fixpoint run {W A : Type} (h : handler W) (p : prog A) (w : W)
  : option (A * W) * trace :=
  match p with
  | Ret a => (Some (a, w), [])
  | Crash => (None, [])
  | Do c k =>
      let (r, w1) := h c w in
      let (res, t) := run h (k r) w1 in
      (res, ev c r :: t)
  end.

(** ** What the build provides *)

(** hostfxr.cpp takes three things from headers and the build that are not
    among the sources: the commit hash printed in trace messages, the file
    name of the hosting-policy module (macro [LIBHOSTPOLICY_NAME]) and the
    integer values of the [StatusCode] enumerators (error_codes.h).  They
    are parameters of the development.

    Modelled from the spec: of the values of the enumerators the spec says
    that zero means success and that every failure kind has a distinct
    value; [StatusCode_int] is the value of an enumerator once converted to
    [int]. *)
Class platform : Type := {
  REPO_COMMIT_HASH : string_t;
  LIBHOSTPOLICY_NAME : string_t;
  StatusCode_int : StatusCode -> Z;
  Success_is_zero : StatusCode_int Success = 0;
  StatusCode_distinct :
    forall a b, StatusCode_int a = StatusCode_int b -> a = b
}.

(** ** Stores into the caller's buffer *)

(** [buffer[i] = c]; [None] when [i] is outside the array. *)
Fixpoint poke (cells : list char_t) (i : nat) (c : char_t)
  : option (list char_t) :=
  match cells, i with
  | [], _ => None
  | _ :: rest, O => Some (c :: rest)
  | x :: rest, S i' => option_map (cons x) (poke rest i' c)
  end.

(** Stores [src] into the first cells of the array; [None] when the array
    is shorter than [src]. *)
Fixpoint overwrite (cells src : list char_t) {struct src}
  : option (list char_t) :=
  match src, cells with
  | [], _ => Some cells
  | _ :: _, [] => None
  | c :: src', _ :: cells' => option_map (cons c) (overwrite cells' src')
  end.

(** [s.copy(dest, count)] of [std::basic_string]: copies the first
    [min(count, s.size())] characters of [s] to [dest] and returns how many
    it copied.  [count] has been converted to [size_t] by the caller. *)
Definition basic_string_copy (s : string_t) (dest : list char_t) (count : Z)
  : option (nat * list char_t) :=
  let rlen := Nat.min (Z.to_nat count) (String.length s) in
  option_map (pair rlen)
    (overwrite dest (firstn rlen (list_ascii_of_string s))).

(** ** Partial operations *)

(** A call through a function pointer: a null pointer does not return. *)
Definition through {A : Type} (fn : option proc_t) (k : proc_t -> prog A)
  : prog A :=
  match fn with
  | Some f => k f
  | None => Crash
  end.

(** A read of a [pal::dll_t] variable: an uninitialised one does not
    return. *)
Definition handle {A : Type} (h : option dll_t) (k : dll_t -> prog A)
  : prog A :=
  match h with
  | Some d => k d
  | None => Crash
  end.

(** A store: one outside the array does not return. *)
Definition stored {A : Type} (o : option A) : prog A :=
  match o with
  | Some a => Ret a
  | None => Crash
  end.

(** A path argument: [if (p == nullptr) p = _X("")]. *)
Definition or_empty (p : c_str_t) : string_t :=
  match p with
  | Some s => s
  | None => ""
  end.

Definition is_nullptr {A : Type} (p : option A) : bool :=
  match p with
  | Some _ => false
  | None => true
  end.

(** ** hostfxr.cpp *)

Section Hostfxr.

Context {P : platform}.

(** The final values of the output parameters of the loader functions:
    [host_path], [*h_host], [*load_fn], [*unload_fn] for the common part,
    and [*h_host], [*load_fn], [*main_fn], [*unload_fn] for the two
    calling conventions. *)
Definition common_out : Set :=
  string_t * option dll_t * option proc_t * option proc_t.
Definition library_out : Set :=
  option dll_t * option proc_t * option proc_t * option proc_t.

(** The output parameters [host_path], [*h_host], [*load_fn] and
    [*unload_fn] are passed in with their current values and returned with
    their final ones, next to the [int] the function returns.  An
    uninitialised [pal::dll_t] is [None].

    [pal::load_library] is handed [h_host] and stores the module's handle
    there when it succeeds.  What it leaves there when it fails is decided
    in the platform layer, which is not among the sources: the value
    returned for [*h_host] in that case is the incoming one, only to have a
    value, and no property below speaks of it. *)
Definition load_host_library_common
    (lib_dir : string_t)
    (host_path : string_t)
    (h_host : option dll_t)
    (load_fn unload_fn : option proc_t)
  : prog (Z * common_out) :=
  found <- invoke (library_exists_in_dir lib_dir LIBHOSTPOLICY_NAME) ;;
  match found return prog (Z * common_out) with
  | None =>
      Ret (StatusCode_int CoreHostLibMissingFailure,
           (host_path, h_host, load_fn, unload_fn))
  | Some host_path =>
      (* Load library *)
      loaded <- invoke (pal_load_library host_path) ;;
      match loaded return prog (Z * common_out) with
      | None =>
          invoke (trace_info "Load library of %s failed" [host_path]) ;;
          Ret (StatusCode_int CoreHostLibLoadFailure,
               (host_path, h_host, load_fn, unload_fn))
      | Some h =>
          (* Obtain entrypoint symbols *)
          load_fn <- invoke (pal_get_symbol h "corehost_load") ;;
          unload_fn <- invoke (pal_get_symbol h "corehost_unload") ;;
          Ret (if negb (is_nullptr load_fn) && negb (is_nullptr unload_fn)
               then StatusCode_int Success
               else StatusCode_int CoreHostEntryPointFailure,
               (host_path, Some h, load_fn, unload_fn))
      end
  end.

Definition load_host_library
    (lib_dir : string_t)
    (h_host : option dll_t)
    (load_fn main_fn unload_fn : option proc_t)
  : prog (Z * library_out) :=
  '(rc, (_, h_host, load_fn, unload_fn)) <-
    load_host_library_common lib_dir "" h_host load_fn unload_fn ;;
  if negb (rc =? StatusCode_int Success) then
    Ret (rc, (h_host, load_fn, main_fn, unload_fn))
  else
    (* Obtain entrypoint symbol *)
    main_fn <- handle h_host
                 (fun h => invoke (pal_get_symbol h "corehost_main")) ;;
    Ret (if negb (is_nullptr main_fn)
         then StatusCode_int Success
         else StatusCode_int CoreHostEntryPointFailure,
         (h_host, load_fn, main_fn, unload_fn)).

Definition load_host_library_with_return
    (lib_dir : string_t)
    (h_host : option dll_t)
    (load_fn main_fn unload_fn : option proc_t)
  : prog (Z * library_out) :=
  '(rc, (_, h_host, load_fn, unload_fn)) <-
    load_host_library_common lib_dir "" h_host load_fn unload_fn ;;
  if negb (rc =? StatusCode_int Success) then
    Ret (rc, (h_host, load_fn, main_fn, unload_fn))
  else
    (* Obtain entrypoint symbol *)
    main_fn <- handle h_host
                 (fun h => invoke (pal_get_symbol
                                     h "corehost_main_with_output_buffer")) ;;
    Ret (if negb (is_nullptr main_fn)
         then StatusCode_int Success
         else StatusCode_int CoreHostEntryPointFailure,
         (h_host, load_fn, main_fn, unload_fn)).

Definition execute_app
    (impl_dll_dir : string_t)
    (init : corehost_init_t)
    (argc : Z)
    (argv : list string_t)
  : prog Z :=
  '(code, (corehost, host_load, host_main, host_unload)) <-
    load_host_library impl_dll_dir None None None None ;;
  if negb (code =? StatusCode_int Success) then
    invoke (trace_error
              "An error occurred while loading required library %s from [%s]"
              [LIBHOSTPOLICY_NAME; impl_dll_dir]) ;;
    Ret code
  else
    (* Previous hostfxr trace messages must be printed before calling
       trace::setup in hostpolicy *)
    invoke trace_flush ;;
    intf <- invoke (get_host_init_data init) ;;
    code <- through host_load (fun f => invoke (corehost_load f intf)) ;;
    code <- (if code =? 0 then
               code <- through host_main
                         (fun f => invoke (corehost_main f argc argv)) ;;
               through host_unload (fun f => invoke (corehost_unload f)) ;;
               Ret code
             else Ret code) ;;
    handle corehost (fun d => invoke (pal_unload_library d)) ;;
    Ret code.

Definition execute_host_command
    (impl_dll_dir : string_t)
    (init : corehost_init_t)
    (argc : Z)
    (argv : list string_t)
    (result_buffer : buffer_t)
    (buffer_size : Z)
    (required_buffer_size : int32_ptr)
  : prog Z :=
  '(code, (corehost, host_load, host_main, host_unload)) <-
    load_host_library_with_return impl_dll_dir None None None None ;;
  if negb (code =? StatusCode_int Success) then
    invoke (trace_error
              "An error occurred while loading required library %s from [%s] for a host command"
              [LIBHOSTPOLICY_NAME; impl_dll_dir]) ;;
    Ret code
  else
    (* Previous hostfxr trace messages must be printed before calling
       trace::setup in hostpolicy *)
    invoke trace_flush ;;
    intf <- invoke (get_host_init_data init) ;;
    code <- through host_load (fun f => invoke (corehost_load f intf)) ;;
    code <- (if code =? 0 then
               code <- through host_main
                         (fun f => invoke (corehost_main_with_output_buffer
                                             f argc argv result_buffer
                                             buffer_size required_buffer_size)) ;;
               through host_unload (fun f => invoke (corehost_unload f)) ;;
               Ret code
             else Ret code) ;;
    handle corehost (fun d => invoke (pal_unload_library d)) ;;
    Ret code.

(** Returns -1 for an invalid argument, 0 when no SDK is found and
    otherwise the number of characters, terminator included, that the
    located SDK path needs; the second component is the caller's buffer
    after the call. *)
Definition hostfxr_resolve_sdk
    (exe_dir working_dir : c_str_t)
    (buffer : buffer_t)
    (buffer_size : Z)
  : prog (Z * buffer_t) :=
  invoke trace_setup ;;
  invoke (trace_info
            "--- Invoked hostfxr [commit hash: %s] hostfxr_resolve_sdk"
            [REPO_COMMIT_HASH]) ;;
  if (buffer_size <? 0) || ((buffer_size >? 0) && is_nullptr buffer) then
    invoke (trace_error "hostfxr_resolve_sdk received an invalid argument." []) ;;
    Ret (-1, buffer)
  else
    let exe_dir := or_empty exe_dir in
    let working_dir := or_empty working_dir in
    '(found, cli_sdk) <- invoke (resolve_sdk_dotnet_path exe_dir working_dir) ;;
    if negb found then
      (* sdk_resolver_t::resolve_sdk_dotnet_path handles tracing for this
         error case. *)
      Ret (0, buffer)
    else
      buffer <-
        (if size cli_sdk <? size_t_of buffer_size then
           match buffer return prog buffer_t with
           | None => Crash
           | Some cells =>
               '(length, cells) <-
                 stored (basic_string_copy cli_sdk cells
                           (size_t_of (buffer_size - 1))) ;;
               assert (Z.of_nat length =? size cli_sdk) ;;
               assert (Z.of_nat length <? size_t_of buffer_size) ;;
               cells <- stored (poke cells length NUL) ;;
               Ret (Some cells)
           end
         else
           invoke (trace_info
                     "hostfxr_resolve_sdk received a buffer that is too small to hold the located SDK path."
                     []) ;;
           Ret buffer) ;;
      Ret (int32_of (size_t_of (size cli_sdk + 1)), buffer).

(** [result] is the caller's callback, a function pointer that is called
    without a test for null. *)
Definition hostfxr_resolve_sdk2
    (exe_dir working_dir : c_str_t)
    (flags : Z)
    (result : option proc_t)
  : prog Z :=
  invoke trace_setup ;;
  invoke (trace_info
            "--- Invoked hostfxr [commit hash: %s] hostfxr_resolve_sdk2"
            [REPO_COMMIT_HASH]) ;;
  let exe_dir := or_empty exe_dir in
  let working_dir := or_empty working_dir in
  '(success, resolved_sdk_dir_value, global_json_path_value) <-
    invoke (resolve_sdk_dotnet_path_ex exe_dir working_dir
              (negb (Z.land flags disallow_prerelease =? 0))) ;;
  (if success then
     through result
       (fun f => invoke (resolve_sdk2_result
                           f resolved_sdk_dir resolved_sdk_dir_value))
   else Ret tt) ;;
  (if negb (empty global_json_path_value) then
     through result
       (fun f => invoke (resolve_sdk2_result
                           f global_json_path global_json_path_value))
   else Ret tt) ;;
  Ret (if success
       then StatusCode_int Success
       else StatusCode_int SdkResolverResolveFailure).

(** The loop [for (const auto& sdk_info : sdk_infos)
    sdk_dirs.push_back(sdk_info.full_path.c_str())]. *)
Definition collect_sdk_dirs (sdk_infos : list sdk_info) : list string_t :=
  fold_left (fun sdk_dirs info => sdk_dirs ++ [full_path info]) sdk_infos [].

(** [result] is the caller's callback, a function pointer that is called
    without a test for null; it receives [sdk_dirs.size()] converted to
    [int32_t]. *)
Definition hostfxr_get_available_sdks
    (exe_dir : c_str_t)
    (result : option proc_t)
  : prog Z :=
  invoke trace_setup ;;
  invoke (trace_info
            "--- Invoked hostfxr [commit hash: %s] hostfxr_get_available_sdks"
            [REPO_COMMIT_HASH]) ;;
  let exe_dir := or_empty exe_dir in
  sdk_infos <- invoke (get_all_sdk_infos exe_dir) ;;
  match sdk_infos return prog unit with
  | [] => through result (fun f => invoke (get_available_sdks_result f 0 None))
  | _ :: _ =>
      let sdk_dirs := collect_sdk_dirs sdk_infos in
      through result
        (fun f => invoke (get_available_sdks_result f
                            (int32_of
                               (size_t_of (Z.of_nat (List.length sdk_dirs))))
                            (Some sdk_dirs)))
  end ;;
  Ret (StatusCode_int Success).

Definition hostfxr_get_native_search_directories
    (argc : Z)
    (argv : list string_t)
    (buffer : buffer_t)
    (buffer_size : Z)
    (required_buffer_size : int32_ptr)
  : prog Z :=
  invoke trace_setup ;;
  invoke (trace_info
            "--- Invoked hostfxr_get_native_search_directories [commit hash: %s] main"
            [REPO_COMMIT_HASH]) ;;
  if (buffer_size <? 0) || ((buffer_size >? 0) && is_nullptr buffer)
     || is_nullptr required_buffer_size then
    invoke (trace_error
              "hostfxr_get_native_search_directories received an invalid argument."
              []) ;;
    Ret (StatusCode_int InvalidArgFailure)
  else
    startup_info <- invoke (host_startup_info_parse argc argv) ;;
    rc <- invoke (fx_muxer_execute "get-native-search-directories" argc argv
                    startup_info buffer buffer_size required_buffer_size) ;;
    Ret rc.

End Hostfxr.

(** ** Observing a trace *)

(** Kinds of calls. *)
Definition is_trace (c : call) : bool :=
  match c with
  | trace_setup | trace_info _ _ | trace_error _ _ | trace_flush => true
  | _ => false
  end.

Definition is_pal_load_library (c : call) : bool :=
  match c with pal_load_library _ => true | _ => false end.

Definition is_pal_get_symbol (c : call) : bool :=
  match c with pal_get_symbol _ _ => true | _ => false end.

Definition is_pal_unload_library (c : call) : bool :=
  match c with pal_unload_library _ => true | _ => false end.

Definition is_corehost_load (c : call) : bool :=
  match c with corehost_load _ _ => true | _ => false end.

(** The module's [main] entry point under either calling convention. *)
Definition is_corehost_main (c : call) : bool :=
  match c with
  | corehost_main _ _ _
  | corehost_main_with_output_buffer _ _ _ _ _ _ => true
  | _ => false
  end.

Definition is_corehost_unload (c : call) : bool :=
  match c with corehost_unload _ => true | _ => false end.

(** The calls that make up the life of a loaded module: its [load],
    [main] and [unload] entry points and [pal::unload_library]. *)
Definition is_lifecycle (c : call) : bool :=
  is_corehost_load c || is_corehost_main c || is_corehost_unload c
  || is_pal_unload_library c.

(** The callback of [hostfxr_resolve_sdk2], with any key and with the key
    [k]. *)
Definition is_resolve_sdk2_result (c : call) : bool :=
  match c with resolve_sdk2_result _ _ _ => true | _ => false end.

Definition is_result_with_key (k : hostfxr_resolve_sdk2_result_key_t) (c : call)
  : bool :=
  match c with
  | resolve_sdk2_result _ k' _ => key_eqb k k'
  | _ => false
  end.

Definition is_get_available_sdks_result (c : call) : bool :=
  match c with get_available_sdks_result _ _ _ => true | _ => false end.

(** The calls of a trace, without their answers. *)
Definition calls (t : trace) : list call := map (@projT1 call resp) t.

(** Some call of the trace is of kind [p]. *)
Definition called (p : call -> bool) (t : trace) : bool :=
  existsb p (calls t).

(** The calls of kind [p], in order. *)
Definition calls_of (p : call -> bool) (t : trace) : list call :=
  filter p (calls t).

(** The last call of a trace. *)
Definition last_call (t : trace) : option call := hd_error (rev (calls t)).

(** The names [pal::get_symbol] was asked for, in order. *)
Definition lookups (t : trace) : list string :=
  flat_map (fun c => match c with pal_get_symbol _ n => [n] | _ => [] end)
           (calls t).

(** The first answer that [f] picks out of a trace. *)
Fixpoint first_answer {A : Type} (f : event -> option A) (t : trace)
  : option A :=
  match t with
  | [] => None
  | e :: t' =>
      match f e with
      | Some a => Some a
      | None => first_answer f t'
      end
  end.

(** What [library_exists_in_dir] answered: [Some None] when the module
    file is absent, [None] when the question was not asked. *)
Definition module_file (t : trace) : option (option string_t) :=
  first_answer
    (fun e => match e with
              | existT _ c r =>
                  match c return resp c -> option (option string_t) with
                  | library_exists_in_dir _ _ => fun r => Some r
                  | _ => fun _ => None
                  end r
              end) t.

(** What [pal::load_library] answered: [Some None] when the OS loader
    rejected the file. *)
Definition os_load (t : trace) : option (option dll_t) :=
  first_answer
    (fun e => match e with
              | existT _ c r =>
                  match c return resp c -> option (option dll_t) with
                  | pal_load_library _ => fun r => Some r
                  | _ => fun _ => None
                  end r
              end) t.

(** The handle [pal::load_library] stored, if it loaded the module. *)
Definition os_load_handle (t : trace) : option dll_t :=
  match os_load t with
  | Some (Some d) => Some d
  | _ => None
  end.

(** What [pal::get_symbol] answered for [name]: [Some None] when the
    symbol is absent (a null pointer). *)
Definition symbol_lookup (name : string) (t : trace)
  : option (option proc_t) :=
  first_answer
    (fun e => match e with
              | existT _ c r =>
                  match c return resp c -> option (option proc_t) with
                  | pal_get_symbol _ n =>
                      fun r => if String.eqb n name then Some r else None
                  | _ => fun _ => None
                  end r
              end) t.

(** What the module's [load] entry point returned. *)
Definition load_answer (t : trace) : option Z :=
  first_answer
    (fun e => match e with
              | existT _ c r =>
                  match c return resp c -> option Z with
                  | corehost_load _ _ => fun r => Some r
                  | _ => fun _ => None
                  end r
              end) t.

(** What the module's [main] entry point returned. *)
Definition main_answer (t : trace) : option Z :=
  first_answer
    (fun e => match e with
              | existT _ c r =>
                  match c return resp c -> option Z with
                  | corehost_main _ _ _ => fun r => Some r
                  | corehost_main_with_output_buffer _ _ _ _ _ _ =>
                      fun r => Some r
                  | _ => fun _ => None
                  end r
              end) t.

(** What the three-argument SDK resolver answered: whether it found an
    SDK, and [cli_sdk]. *)
Definition sdk_answer (t : trace) : option (bool * string_t) :=
  first_answer
    (fun e => match e with
              | existT _ c r =>
                  match c return resp c -> option (bool * string_t) with
                  | resolve_sdk_dotnet_path _ _ => fun r => Some r
                  | _ => fun _ => None
                  end r
              end) t.

(** What the five-argument SDK resolver answered: whether it succeeded,
    [resolved_sdk_dir] and [global_json_path]. *)
Definition sdk_ex_answer (t : trace) : option (bool * string_t * string_t) :=
  first_answer
    (fun e => match e with
              | existT _ c r =>
                  match c return resp c -> option (bool * string_t * string_t) with
                  | resolve_sdk_dotnet_path_ex _ _ _ => fun r => Some r
                  | _ => fun _ => None
                  end r
              end) t.

(** What [sdk_info::get_all_sdk_infos] left in [sdk_infos]. *)
Definition sdk_infos_answer (t : trace) : option (list sdk_info) :=
  first_answer
    (fun e => match e with
              | existT _ c r =>
                  match c return resp c -> option (list sdk_info) with
                  | get_all_sdk_infos _ => fun r => Some r
                  | _ => fun _ => None
                  end r
              end) t.

(** ** What the properties speak of *)

Section LoaderContracts.

Context {P : platform}.

(** What a loader for one calling convention owes about the entry point
    [main_symbol] of that convention: it is looked up last and only after
    [corehost_load] and [corehost_unload] resolved, the loader succeeds
    exactly when all three resolved, and a null [main_symbol] is an
    entry-point failure. *)
Definition main_validated_separately
    (main_symbol : string) (rc : Z) (t : trace) : Prop :=
  (rc = StatusCode_int Success <->
   exists f g m,
     symbol_lookup "corehost_load" t = Some (Some f)
     /\ symbol_lookup "corehost_unload" t = Some (Some g)
     /\ symbol_lookup main_symbol t = Some (Some m))
  /\ (symbol_lookup main_symbol t = Some None ->
      rc = StatusCode_int CoreHostEntryPointFailure)
  /\ (symbol_lookup main_symbol t <> None ->
      exists f g,
        symbol_lookup "corehost_load" t = Some (Some f)
        /\ symbol_lookup "corehost_unload" t = Some (Some g))
  /\ (lookups t = []
      \/ lookups t = ["corehost_load"; "corehost_unload"]
      \/ lookups t = ["corehost_load"; "corehost_unload"; main_symbol]).

(** The stages at which a loader fails, read off its trace: a missing
    module file ends the run before the OS loader or any symbol lookup is
    tried, a load failure means the file was found and the OS loader
    rejected it, and an entry-point failure means the library was loaded
    and one of the [required] symbols is null. *)
Definition failure_stages
    (required : list string) (rc : Z) (t : trace) : Prop :=
  (module_file t = Some None ->
   rc = StatusCode_int CoreHostLibMissingFailure
   /\ called is_pal_load_library t = false
   /\ called is_pal_get_symbol t = false
   /\ List.length t = 1%nat)
  /\ (rc = StatusCode_int CoreHostLibMissingFailure ->
      module_file t = Some None)
  /\ (rc = StatusCode_int CoreHostLibLoadFailure ->
      (exists path, module_file t = Some (Some path))
      /\ os_load t = Some None
      /\ called is_pal_get_symbol t = false)
  /\ (rc = StatusCode_int CoreHostEntryPointFailure ->
      (exists path, module_file t = Some (Some path))
      /\ (exists d, os_load t = Some (Some d))
      /\ exists name, In name required /\ symbol_lookup name t = Some None)
  /\ (rc = StatusCode_int Success ->
      forall name, In name required ->
                   exists f, symbol_lookup name t = Some (Some f)).

End LoaderContracts.

(** The two calling conventions of the execution dispatcher:
    [execute_app] runs [corehost_main] for an exit code,
    [execute_host_command] runs [corehost_main_with_output_buffer] on the
    caller's buffer. *)
Inductive convention : Set :=
| exit_code
| output_buffer
    (result_buffer : buffer_t) (buffer_size : Z)
    (required_buffer_size : int32_ptr).

Definition main_symbol (cv : convention) : string :=
  match cv with
  | exit_code => "corehost_main"
  | output_buffer _ _ _ => "corehost_main_with_output_buffer"
  end.

Definition main_call (cv : convention) (fn : proc_t) (argc : Z)
    (argv : list string_t) : call :=
  match cv with
  | exit_code => corehost_main fn argc argv
  | output_buffer b n r => corehost_main_with_output_buffer fn argc argv b n r
  end.

Definition execute {P : platform} (cv : convention) (impl_dll_dir : string_t)
    (init : corehost_init_t) (argc : Z) (argv : list string_t) : prog Z :=
  match cv with
  | exit_code => execute_app impl_dll_dir init argc argv
  | output_buffer b n r =>
      execute_host_command impl_dll_dir init argc argv b n r
  end.

(** The caller's array after [s] and its terminator were stored at its
    start. *)
Definition terminated_copy (s : string_t) (cells : list char_t)
  : list char_t :=
  list_ascii_of_string s ++ NUL :: skipn (S (String.length s)) cells.

(** Modelled from the spec: sdk_resolver_t::resolve_sdk_dotnet_path lives
    in sdk_resolver.cpp, which is not among the sources.  What the spec and
    the comment above [hostfxr_resolve_sdk2] say of its [global_json_path]
    output: a search from the working directory upwards either finds no
    global.json, or finds one that does not impact the resolution (for
    instance one that specifies no version), or finds one that is used;
    the resolver stores the file's path in the output in the last case
    and leaves the output empty in the other two. *)
Inductive global_json_t : Set :=
| global_json_absent
| global_json_inert (path : string_t)
| global_json_used (path : string_t).

Definition reported_global_json_path (g : global_json_t) : string_t :=
  match g with
  | global_json_used path => path
  | global_json_absent | global_json_inert _ => ""
  end.

(** The path of a file that was found is not the empty string. *)
Definition global_json_well_formed (g : global_json_t) : Prop :=
  match g with
  | global_json_absent => True
  | global_json_inert path | global_json_used path => path <> ""
  end.

(** Modelled from the spec: sdk_info::get_all_sdk_infos lives in
    sdk_info.cpp, which is not among the sources; the spec has it return
    the discovered SDKs as a list ordered ascending by semantic version.
    The comparison of versions (fx_ver.h) is not among the sources either
    and is a parameter, [precedes]. *)
Definition ordered_by (precedes : fx_ver_t -> fx_ver_t -> Prop)
    (infos : list sdk_info) : Prop :=
  StronglySorted (fun a b => precedes (version a) (version b)) infos.

(** The directories handed to the callback are those of the SDK entries,
    position by position, so that an earlier directory belongs to a version
    that precedes the version of a later one. *)
Definition dirs_ascending (precedes : fx_ver_t -> fx_ver_t -> Prop)
    (infos : list sdk_info) (dirs : list string_t) : Prop :=
  forall i j a b,
    (i < j)%nat ->
    nth_error dirs i = Some a ->
    nth_error dirs j = Some b ->
    exists x y,
      nth_error infos i = Some x /\ nth_error infos j = Some y
      /\ full_path x = a /\ full_path y = b
      /\ precedes (version x) (version y).

(** ** A scripted environment *)

(** An environment that answers from a fixed script and counts the calls
    it has served; used to run the programs on concrete inputs. *)
Record script : Set := mk_script {
  on_library_exists : option string_t;
  on_load_library : option dll_t;
  on_get_symbol : string -> option proc_t;
  on_corehost_load : Z;
  on_corehost_main : Z;
  on_corehost_unload : Z;
  on_resolve_sdk : bool * string_t;
  on_resolve_sdk_ex : bool * string_t * string_t;
  on_get_all_sdk_infos : list sdk_info;
  on_muxer_execute : Z
}.

Definition scripted (s : script) : handler nat :=
  fun c n =>
    (match c return resp c with
     | trace_setup | trace_info _ _ | trace_error _ _ | trace_flush => tt
     | library_exists_in_dir _ _ => on_library_exists s
     | pal_load_library _ => on_load_library s
     | pal_get_symbol _ name => on_get_symbol s name
     | pal_unload_library _ => tt
     | get_host_init_data init => init
     | corehost_load _ _ => on_corehost_load s
     | corehost_main _ _ _ => on_corehost_main s
     | corehost_main_with_output_buffer _ _ _ _ _ _ => on_corehost_main s
     | corehost_unload _ => on_corehost_unload s
     | resolve_sdk_dotnet_path _ _ => on_resolve_sdk s
     | resolve_sdk_dotnet_path_ex _ _ _ => on_resolve_sdk_ex s
     | get_all_sdk_infos _ => on_get_all_sdk_infos s
     | resolve_sdk2_result _ _ _ => tt
     | get_available_sdks_result _ _ _ => tt
     | host_startup_info_parse _ _ => mk_host_startup_info "" "" ""
     | fx_muxer_execute _ _ _ _ _ _ _ => on_muxer_execute s
     end, S n).

(** The values of the enumerators in the sample build. *)
Definition sample_StatusCode_int (s : StatusCode) : Z :=
  match s with
  | Success => 0
  | InvalidArgFailure => int32_of 0x80008081
  | CoreHostLibLoadFailure => int32_of 0x80008082
  | CoreHostLibMissingFailure => int32_of 0x80008083
  | CoreHostEntryPointFailure => int32_of 0x80008084
  | SdkResolverResolveFailure => int32_of 0x8000809b
  end.

(** A build: the module's file name on Linux, and status values that are
    zero for [Success] and pairwise distinct. *)
Definition sample_platform : platform := {|
  REPO_COMMIT_HASH := "0000000";
  LIBHOSTPOLICY_NAME := "libhostpolicy.so";
  StatusCode_int := sample_StatusCode_int;
  Success_is_zero := eq_refl;
  StatusCode_distinct :=
    ltac:(intros [] []; vm_compute; intro H;
          first [ reflexivity | discriminate H ])
|}.

(** A well-installed module whose entry points all resolve. *)
Definition healthy_symbols (name : string) : option proc_t :=
  if String.eqb name "corehost_load" then Some 1%positive
  else if String.eqb name "corehost_unload" then Some 2%positive
  else if String.eqb name "corehost_main" then Some 3%positive
  else if String.eqb name "corehost_main_with_output_buffer" then Some 4%positive
  else None.

(** The SDK directories of the spec's example, as the enumerator returns
    them. *)
Definition sample_sdk_infos : list sdk_info :=
  [ mk_sdk_info (mk_fx_ver 1 0 0 "") "/dotnet/sdk/1.0.0";
    mk_sdk_info (mk_fx_ver 2 1 0 "") "/dotnet/sdk/2.1.0";
    mk_sdk_info (mk_fx_ver 3 0 0 "preview") "/dotnet/sdk/3.0.0-preview" ].

Definition healthy : script := {|
  on_library_exists := Some "/dotnet/host/libhostpolicy.so";
  on_load_library := Some 7;
  on_get_symbol := healthy_symbols;
  on_corehost_load := 0;
  on_corehost_main := 42;
  on_corehost_unload := 0;
  on_resolve_sdk := (true, "/dotnet/sdk/2.1.0");
  on_resolve_sdk_ex := (true, "/dotnet/sdk/2.1.0", "/work/global.json");
  on_get_all_sdk_infos := sample_sdk_infos;
  on_muxer_execute := 0
|}.

(** A module whose [load] entry point fails. *)
Definition failing_load : script := {|
  on_library_exists := on_library_exists healthy;
  on_load_library := on_load_library healthy;
  on_get_symbol := on_get_symbol healthy;
  on_corehost_load := 5;
  on_corehost_main := on_corehost_main healthy;
  on_corehost_unload := on_corehost_unload healthy;
  on_resolve_sdk := on_resolve_sdk healthy;
  on_resolve_sdk_ex := on_resolve_sdk_ex healthy;
  on_get_all_sdk_infos := on_get_all_sdk_infos healthy;
  on_muxer_execute := on_muxer_execute healthy
|}.

(** A directory without the module, and a module built without
    [corehost_unload]. *)
Definition not_installed : script := {|
  on_library_exists := None;
  on_load_library := None;
  on_get_symbol := fun _ => None;
  on_corehost_load := 0;
  on_corehost_main := 0;
  on_corehost_unload := 0;
  on_resolve_sdk := (false, "");
  on_resolve_sdk_ex := (false, "", "");
  on_get_all_sdk_infos := [];
  on_muxer_execute := 0
|}.

Definition no_unload_symbol : script := {|
  on_library_exists := on_library_exists healthy;
  on_load_library := on_load_library healthy;
  on_get_symbol :=
    fun name =>
      if String.eqb name "corehost_unload" then None else healthy_symbols name;
  on_corehost_load := on_corehost_load healthy;
  on_corehost_main := on_corehost_main healthy;
  on_corehost_unload := on_corehost_unload healthy;
  on_resolve_sdk := on_resolve_sdk healthy;
  on_resolve_sdk_ex := on_resolve_sdk_ex healthy;
  on_get_all_sdk_infos := on_get_all_sdk_infos healthy;
  on_muxer_execute := on_muxer_execute healthy
|}.

(** A resolver that fails while reporting the global.json it read. *)
Definition unsatisfiable_pin : script := {|
  on_library_exists := on_library_exists healthy;
  on_load_library := on_load_library healthy;
  on_get_symbol := on_get_symbol healthy;
  on_corehost_load := on_corehost_load healthy;
  on_corehost_main := on_corehost_main healthy;
  on_corehost_unload := on_corehost_unload healthy;
  on_resolve_sdk := (false, "");
  on_resolve_sdk_ex := (false, "", "/work/global.json");
  on_get_all_sdk_infos := [];
  on_muxer_execute := on_muxer_execute healthy
|}.

(** A comparison of versions for the examples: by major, minor and patch
    number. *)
Definition numeric_precedes (a b : fx_ver_t) : Prop :=
  ver_major a < ver_major b
  \/ (ver_major a = ver_major b
      /\ (ver_minor a < ver_minor b
          \/ (ver_minor a = ver_minor b /\ ver_patch a <= ver_patch b))).

(** A caller's array of [n] cells, each holding the character x. *)
Definition scratch (n : nat) : list char_t := repeat "x"%char n.

(** ** hostfxr.cpp: the startup entry points *)

Section Startup.

Context {P : platform}.

(** Modelled from the spec: the constructor of [host_startup_info_t] is in
    host_startup_info.h, which is not among the sources; it is taken to
    store the three paths it is given, which the caller passes as
    null-terminated strings. *)
Definition hostfxr_main_startupinfo
    (argc : Z)
    (argv : list string_t)
    (host_path dotnet_root app_path : string_t)
  : prog Z :=
  invoke trace_setup ;;
  invoke (trace_info "--- Invoked hostfxr v2 [commit hash: %s] main"
            [REPO_COMMIT_HASH]) ;;
  let startup_info := mk_host_startup_info host_path dotnet_root app_path in
  invoke (fx_muxer_execute "" argc argv startup_info None 0 None).

Definition hostfxr_main
    (argc : Z)
    (argv : list string_t)
  : prog Z :=
  invoke trace_setup ;;
  invoke (trace_info "--- Invoked hostfxr [commit hash: %s] main"
            [REPO_COMMIT_HASH]) ;;
  startup_info <- invoke (host_startup_info_parse argc argv) ;;
  invoke (fx_muxer_execute "" argc argv startup_info None 0 None).

End Startup.

(** ** What an environment provides *)

(** The environment answers the call [c] with [a], in whatever state it
    is asked. *)
Definition answers {W : Type} (h : handler W) (c : call) (a : resp c)
  : Prop :=
  forall w, fst (h c w) = a.

(** The environment has one answer to the call [c], whenever it is
    asked. *)
Definition stable {W : Type} (h : handler W) (c : call) : Prop :=
  forall w w', fst (h c w) = fst (h c w').

(** All of [names] are exported: none of them looks up as a null
    pointer. *)
Definition resolves (exports : string -> option proc_t)
    (names : list string) : bool :=
  forallb (fun name => negb (is_nullptr (exports name))) names.

(** An environment in which the hosting-policy module is installed:
    [library_exists_in_dir] finds it in [lib_dir] as [file],
    [pal::load_library] loads that file as the module [d], and
    [pal::get_symbol] on [d] gives for each name what [exports] says, a
    null pointer for a name that the module does not export. *)
Definition installed {P : platform} {W : Type} (h : handler W)
    (lib_dir file : string_t) (d : dll_t)
    (exports : string -> option proc_t) : Prop :=
  answers h (library_exists_in_dir lib_dir LIBHOSTPOLICY_NAME) (Some file)
  /\ answers h (pal_load_library file) (Some d)
  /\ forall name, answers h (pal_get_symbol d name) (exports name).

(** What a loader for the calling convention with entry point
    [main_symbol] does where the module is installed: it returns, having
    looked up [corehost_load] and [corehost_unload] and, only if both are
    exported, [main_symbol] after them; it returns [Success] when all three
    are exported and [CoreHostEntryPointFailure] otherwise; it stores the
    module's handle and the pointers it looked up, and leaves [*main_fn]
    as it was, [m0], when it did not look [main_symbol] up. *)
Definition validates_main_after {P : platform} {W : Type} (h : handler W)
    (loader : prog (Z * library_out)) (main_symbol : string)
    (d : dll_t) (exports : string -> option proc_t) (m0 : option proc_t)
    (w : W) : Prop :=
  exists w' t,
    run h loader w
    = (Some ((StatusCode_int
                (if resolves exports
                      ["corehost_load"; "corehost_unload"; main_symbol]
                 then Success else CoreHostEntryPointFailure),
              (Some d,
               exports "corehost_load",
               (if resolves exports ["corehost_load"; "corehost_unload"]
                then exports main_symbol else m0),
               exports "corehost_unload")),
             w'), t)
    /\ lookups t
       = "corehost_load" :: "corehost_unload"
         :: (if resolves exports ["corehost_load"; "corehost_unload"]
             then [main_symbol] else []).

(** The question [hostfxr_resolve_sdk] puts to the resolver. *)
Definition resolve_sdk_question (exe_dir working_dir : c_str_t) : call :=
  resolve_sdk_dotnet_path (or_empty exe_dir) (or_empty working_dir).

(** ** More kinds of calls *)

Definition is_trace_flush (c : call) : bool :=
  match c with trace_flush => true | _ => false end.

Definition is_trace_error (c : call) : bool :=
  match c with trace_error _ _ => true | _ => false end.

(** Everything but the diagnostics sink. *)
Definition beyond_tracing (c : call) : bool := negb (is_trace c).

(** The diagnostics sink and the module's [load] entry point. *)
Definition is_trace_or_load (c : call) : bool :=
  is_trace c || is_corehost_load c.

(** Either overload of [sdk_resolver_t::resolve_sdk_dotnet_path]. *)
Definition is_resolver (c : call) : bool :=
  match c with
  | resolve_sdk_dotnet_path _ _ | resolve_sdk_dotnet_path_ex _ _ _ => true
  | _ => false
  end.

(** Work on the hosting-policy module or through the muxer: looking for
    the module, loading it, resolving or calling its entry points,
    unloading it, parsing the startup information, running the muxer. *)
Definition is_module_work (c : call) : bool :=
  match c with
  | library_exists_in_dir _ _
  | pal_load_library _
  | pal_get_symbol _ _
  | pal_unload_library _
  | get_host_init_data _
  | corehost_load _ _
  | corehost_main _ _ _
  | corehost_main_with_output_buffer _ _ _ _ _ _
  | corehost_unload _
  | host_startup_info_parse _ _
  | fx_muxer_execute _ _ _ _ _ _ _ => true
  | _ => false
  end.

(** The message with which each dispatcher reports a loader failure. *)
Definition loader_error_format (cv : convention) : string :=
  match cv with
  | exit_code =>
      "An error occurred while loading required library %s from [%s]"
  | output_buffer _ _ _ =>
      "An error occurred while loading required library %s from [%s] for a host command"
  end.

(** The loader works on what it found: the only file handed to
    [pal::load_library] is the one [library_exists_in_dir] reported, and
    symbols are only looked up in the module [pal::load_library]
    returned. *)
Definition uses_what_it_found (t : trace) : Prop :=
  (forall path,
      In (pal_load_library path) (calls t) ->
      module_file t = Some (Some path))
  /\ (forall d name,
         In (pal_get_symbol d name) (calls t) ->
         os_load t = Some (Some d)).

(** The callbacks [hostfxr_resolve_sdk2] owes for an answer of the
    resolver, in the order in which it makes them. *)
Definition resolve_sdk2_callbacks (result : proc_t) (success : bool)
    (dir gj : string_t) : list call :=
  (if success then [resolve_sdk2_result result resolved_sdk_dir dir] else [])
  ++ (if empty gj then [] else [resolve_sdk2_result result global_json_path gj]).

(** * Properties *)

(** ** Running sequenced programs *)

(** A sequence runs its first part, then the second from the world the
    first left, and the traces follow each other; a crash of the first part
    ends the run. *)
Lemma run_bind {W A B : Type} (h : handler W) (p : prog A) (f : A -> prog B)
    (w : W) :
  run h (bind p f) w =
  match run h p w with
  | (Some (a, w1), t1) =>
      let (res, t2) := run h (f a) w1 in (res, t1 ++ t2)
  | (None, t1) => (None, t1)
  end.
Proof.
  revert w.
  induction p as [a | c k IH | ]; intro w; cbn [bind run].
  - destruct (run h (f a) w) as [res t2]; reflexivity.
  - destruct (h c w) as [r w1].
    rewrite IH.
    destruct (run h (k r) w1) as [[[a w2] | ] t1]; [ | reflexivity ].
    destruct (run h (f a) w2) as [res t2]; reflexivity.
  - reflexivity.
Qed.

(** ** Status codes *)

Lemma StatusCode_eqb_eq (a b : StatusCode) :
  StatusCode_eqb a b = true <-> a = b.
Proof.
  destruct a, b; cbn; split; intro H; congruence.
Qed.

(** Comparing the integer values of two enumerators compares the
    enumerators. *)
Lemma StatusCode_int_eqb {P : platform} (a b : StatusCode) :
  (StatusCode_int a =? StatusCode_int b) = StatusCode_eqb a b.
Proof.
  destruct (StatusCode_eqb a b) eqn:Hab.
  - apply StatusCode_eqb_eq in Hab. subst b. apply Z.eqb_refl.
  - apply Z.eqb_neq. intro Hint.
    apply StatusCode_distinct in Hint.
    apply StatusCode_eqb_eq in Hint. congruence.
Qed.

(** ** Machine integers *)

Lemma size_t_of_small (z : Z) : 0 <= z <= INT32_MAX -> size_t_of z = z.
Proof.
  unfold size_t_of, INT32_MAX. intro Hz. apply Z.mod_small. lia.
Qed.

Lemma int32_of_small (z : Z) : INT32_MIN <= z <= INT32_MAX -> int32_of z = z.
Proof.
  unfold int32_of, INT32_MIN, INT32_MAX. intro Hz.
  rewrite Z.mod_small by lia. lia.
Qed.

Lemma size_nonneg (s : string_t) : 0 <= size s.
Proof. unfold size. lia. Qed.

(** An empty [pal::string_t] is the empty string. *)
Lemma empty_true (s : string_t) : empty s = true <-> s = "".
Proof.
  destruct s; cbn; split; congruence.
Qed.

(** What passing the validation of the buffer arguments means. *)
Lemma buffer_arguments_valid (buffer : buffer_t) (buffer_size : Z) :
  (buffer_size <? 0) || (buffer_size >? 0) && is_nullptr buffer = false ->
  0 <= buffer_size
  /\ (0 < buffer_size -> exists cells, buffer = Some cells).
Proof.
  intro Hvalid.
  apply orb_false_iff in Hvalid. destruct Hvalid as [Hneg Hnull].
  apply Z.ltb_ge in Hneg. split; [ exact Hneg | ].
  intro Hpos. apply Z.gtb_lt in Hpos. rewrite Hpos in Hnull.
  destruct buffer as [cells | ]; [ eauto | discriminate ].
Qed.

(** ** Stores into the caller's buffer *)

Lemma overwrite_fits (src cells : list char_t) :
  (List.length src <= List.length cells)%nat ->
  overwrite cells src = Some (src ++ skipn (List.length src) cells).
Proof.
  revert cells.
  induction src as [ | c src IH]; intros cells Hlen; [ reflexivity | ].
  destruct cells as [ | x cells]; cbn in Hlen; [ lia | ].
  cbn. rewrite IH by lia. reflexivity.
Qed.

Lemma overwrite_overflow (src cells : list char_t) :
  (List.length cells < List.length src)%nat -> overwrite cells src = None.
Proof.
  revert cells.
  induction src as [ | c src IH]; intros cells Hlen; cbn in Hlen; [ lia | ].
  destruct cells as [ | x cells]; [ reflexivity | ].
  cbn in Hlen |- *. rewrite IH by lia. reflexivity.
Qed.

Lemma poke_after (src rest : list char_t) (x c : char_t) :
  poke (src ++ x :: rest) (List.length src) c = Some (src ++ c :: rest).
Proof.
  induction src as [ | y src IH]; cbn; [ reflexivity | ].
  rewrite IH. reflexivity.
Qed.

Lemma poke_overflow (cells : list char_t) (i : nat) (c : char_t) :
  (List.length cells <= i)%nat -> poke cells i c = None.
Proof.
  revert i.
  induction cells as [ | x cells IH]; intros i Hlen; [ reflexivity | ].
  destruct i as [ | i]; cbn in Hlen |- *; [ lia | ].
  rewrite IH by lia. reflexivity.
Qed.

Lemma length_list_ascii_of_string (s : string) :
  List.length (list_ascii_of_string s) = String.length s.
Proof.
  induction s as [ | c s IH]; cbn; congruence.
Qed.

Lemma firstn_whole_string (s : string) :
  firstn (String.length s) (list_ascii_of_string s) = list_ascii_of_string s.
Proof.
  rewrite <- (length_list_ascii_of_string s). apply firstn_all.
Qed.

(** Copying a whole string and terminating it, in an array with room for
    both. *)
Lemma copy_and_terminate (s : string_t) (cells : list char_t) (count : Z) :
  size s <= count ->
  (String.length s < List.length cells)%nat ->
  exists cells1,
    basic_string_copy s cells count = Some (String.length s, cells1)
    /\ poke cells1 (String.length s) NUL = Some (terminated_copy s cells).
Proof.
  unfold size, basic_string_copy, terminated_copy. intros Hcount Hroom.
  rewrite Nat.min_r by lia.
  pose proof (length_list_ascii_of_string s) as Hlen.
  rewrite firstn_whole_string.
  rewrite overwrite_fits by lia.
  rewrite Hlen.
  eexists. split; [ reflexivity | ].
  destruct (skipn (String.length s) cells) as [ | x rest] eqn:Hskip.
  - apply (f_equal (@List.length ascii)) in Hskip.
    rewrite length_skipn in Hskip. cbn in Hskip. lia.
  - replace (skipn (S (String.length s)) cells) with rest.
    + rewrite <- Hlen. apply poke_after.
    + change (S (String.length s)) with (1 + String.length s)%nat.
      rewrite <- skipn_skipn, Hskip. reflexivity.
Qed.

(** The same in an array without room for both: one of the stores falls
    outside the array. *)
Lemma copy_and_terminate_overflow (s : string_t) (cells : list char_t)
    (count : Z) :
  size s <= count ->
  (List.length cells <= String.length s)%nat ->
  basic_string_copy s cells count = None
  \/ exists cells1,
      basic_string_copy s cells count = Some (String.length s, cells1)
      /\ poke cells1 (String.length s) NUL = None.
Proof.
  unfold size, basic_string_copy. intros Hcount Hroom.
  rewrite Nat.min_r by lia.
  pose proof (length_list_ascii_of_string s) as Hlen.
  rewrite firstn_whole_string.
  destruct (Nat.eq_dec (List.length cells) (String.length s)) as [Heq | Hne].
  - right. rewrite overwrite_fits by lia.
    eexists. split; [ reflexivity | ].
    apply poke_overflow.
    rewrite length_app, length_skipn. lia.
  - left. rewrite overwrite_overflow by lia. reflexivity.
Qed.

(** The string that starts a terminated copy. *)
Lemma firstn_terminated_copy (s : string_t) (cells : list char_t) :
  firstn (S (String.length s)) (terminated_copy s cells)
  = list_ascii_of_string s ++ [NUL].
Proof.
  unfold terminated_copy.
  rewrite <- (length_list_ascii_of_string s).
  change (S (List.length (list_ascii_of_string s)))
    with (1 + List.length (list_ascii_of_string s))%nat.
  rewrite Nat.add_comm, firstn_app_2. reflexivity.
Qed.

(** ** Lists of SDK entries *)

(** The loop that collects the directories computes a [map]. *)
Lemma push_back_all (sdk_infos : list sdk_info) (sdk_dirs : list string_t) :
  fold_left (fun dirs info => dirs ++ [full_path info]) sdk_infos sdk_dirs
  = sdk_dirs ++ map full_path sdk_infos.
Proof.
  revert sdk_dirs.
  induction sdk_infos as [ | info sdk_infos IH]; intro sdk_dirs; cbn.
  - rewrite app_nil_r. reflexivity.
  - rewrite IH, <- app_assoc. reflexivity.
Qed.

Lemma collect_sdk_dirs_map (sdk_infos : list sdk_info) :
  collect_sdk_dirs sdk_infos = map full_path sdk_infos.
Proof.
  unfold collect_sdk_dirs. apply push_back_all.
Qed.

(** In a sorted list an earlier element is related to a later one. *)
Lemma StronglySorted_nth_error {A : Type} (R : A -> A -> Prop) (l : list A) :
  StronglySorted R l ->
  forall i j a b,
    (i < j)%nat ->
    nth_error l i = Some a -> nth_error l j = Some b -> R a b.
Proof.
  induction 1 as [ | x l Hsorted IH Hall]; intros i j a b Hij Hi Hj.
  - destruct i; discriminate Hi.
  - destruct j as [ | j]; [ lia | ].
    cbn in Hj.
    destruct i as [ | i]; cbn in Hi.
    + injection Hi as <-.
      rewrite Forall_forall in Hall. apply Hall.
      eapply nth_error_In. exact Hj.
    + apply (IH i j); [ lia | assumption | assumption ].
Qed.

(** The directories of entries ordered by version are in ascending
    order. *)
Lemma ordered_dirs_ascending (precedes : fx_ver_t -> fx_ver_t -> Prop)
    (infos : list sdk_info) :
  ordered_by precedes infos ->
  dirs_ascending precedes infos (map full_path infos).
Proof.
  intros Hordered i j a b Hij Hi Hj.
  rewrite nth_error_map in Hi, Hj.
  destruct (nth_error infos i) as [x | ] eqn:Hx; [ | discriminate ].
  destruct (nth_error infos j) as [y | ] eqn:Hy; [ | discriminate ].
  injection Hi as <-. injection Hj as <-.
  exists x, y. repeat split.
  exact (StronglySorted_nth_error _ _ Hordered i j x y Hij Hx Hy).
Qed.

(** ** Proof steps shared by the properties below *)

(** Replace the names of a run's result and trace by the run itself. *)
Ltac name_run :=
  match goal with
  | |- forall res t, run ?h ?p ?w = (res, t) -> _ =>
      let res := fresh "res" in
      let t := fresh "t" in
      let H := fresh "Hrun" in
      intros res t H;
      pose proof (f_equal fst H) as Hres;
      pose proof (f_equal snd H) as Htr;
      cbn [fst snd] in Hres, Htr; clear H; subst res t
  end.

Ltac reduce :=
  cbn [run bind invoke through handle stored assert fst snd negb andb orb
       is_nullptr or_empty StatusCode_eqb].

(** Split an answer into its components. *)
Ltac split_answer r :=
  match type of r with
  | unit => destruct r
  | bool => destruct r
  | option _ => destruct r
  | (_ * _)%type =>
      let a := fresh "a" in
      let b := fresh "b" in
      destruct r as [a b]; split_answer a; split_answer b
  | _ => idtac
  end.

(** Name the environment's answer to the next call. *)
Ltac answer h :=
  match goal with
  | |- context [h ?c ?w] =>
      let r := fresh "r" in
      let w' := fresh "w" in
      destruct (h c w) as [r w']; cbn in r; split_answer r
  end.

(** Follow a run to its end, splitting on every answer and every test. *)
Ltac walk h :=
  repeat first
    [ progress reduce
    | rewrite StatusCode_int_eqb
    | rewrite Z.eqb_refl
    | match goal with
      | |- context [h _ _] => answer h
      | |- context [run _ (if ?b then _ else _) _] => destruct b eqn:?
      | |- context [bind (if ?b then _ else _) _] => destruct b eqn:?
      end ].

(** Use what is known of the environment's answer to the next call. *)
Ltac known h :=
  match goal with
  | H : answers h ?c ?a |- context [h ?c ?w0] =>
      let E := fresh "E" in
      let r := fresh "r" in
      let w' := fresh "w" in
      pose proof (H w0) as E; revert E;
      destruct (h c w0) as [r w']; cbn [fst]; intro E; subst r
  end.

(** Follow a run in an environment of which some answers are known. *)
Ltac follow h :=
  repeat first
    [ progress reduce
    | rewrite StatusCode_int_eqb
    | rewrite Z.eqb_refl
    | known h
    | match goal with
      | |- context [h _ _] => answer h
      | |- context [run _ (if ?b then _ else _) _] => destruct b eqn:?
      | |- context [bind (if ?b then _ else _) _] => destruct b eqn:?
      end ].

(** In an environment with the module installed: name what the module
    exports under each of [names], or that it does not. *)
Ltac exported Hsym names :=
  match names with
  | [] => idtac
  | ?name :: ?rest =>
      let H := fresh "Hexport" in
      pose proof (Hsym name) as H;
      match type of H with
      | answers _ _ ?a => let e := fresh "e" in remember a as e; destruct e
      end;
      exported Hsym rest
  end.

(** Name a required symbol whose lookup gave a null pointer. *)
Ltac null_symbol :=
  let try_name n := (exists n; split; [ cbn; tauto | reflexivity ]) in
  first [ try_name "corehost_load"
        | try_name "corehost_unload"
        | try_name "corehost_main"
        | try_name "corehost_main_with_output_buffer" ].

(** Close the case at the end of a run: split the statement, clear away
    impossible assumptions and compute on the trace. *)
Ltac finish :=
  repeat match goal with
         | |- _ /\ _ => split
         | |- _ <-> _ => split
         | |- forall _, _ => intro
         | H : _ /\ _ |- _ => destruct H
         | H : exists _, _ |- _ => destruct H
         | H : _ \/ _ |- _ => destruct H
         | H : In _ _ |- _ => cbn [In] in H
         | H : False |- _ => destruct H
         | H : StatusCode_int _ = StatusCode_int _ |- _ =>
             apply StatusCode_distinct in H
         | H : _ = ?x |- _ => is_var x; subst x
         end;
  cbn in *; try discriminate; try congruence; try null_symbol; eauto 8.

(** ** The library loader *)

Section Loader.

Context {P : platform} {W : Type} (h : handler W).

(** C8. A library load yields a usable handle only if both the [load] and
    the [unload] entry point resolve: [load_host_library_common] returns
    [Success] exactly when both [corehost_load] and [corehost_unload] were
    looked up and are non-null (the handle and both pointers are then
    set), and [CoreHostEntryPointFailure] when either lookup gave a null
    pointer; it never looks up the entry point of a calling convention.
    [load_host_library] and [load_host_library_with_return] look that one
    up afterwards, only when the common part succeeded, and fail with
    [CoreHostEntryPointFailure] when it is null.

    The first three parts say this of every environment, by what the
    run's lookups gave.  The last part says it of the environments in
    which the module is installed, by what the module exports: there
    [load_host_library_common] does look up both symbols, and only them,
    stores the file's path, the module's handle and the two pointers, and
    returns [Success] if the module exports both and
    [CoreHostEntryPointFailure] if not; and each convention's loader then
    looks up its own entry point if the module exports both, and returns
    [Success] if it exports all three. *)
Theorem entry_points_all_or_nothing
    (lib_dir host_path0 : string_t) (h0 : option dll_t)
    (l0 u0 m0 : option proc_t) (w : W) :
  (exists rc hp hh lf uf w' t,
      run h (load_host_library_common lib_dir host_path0 h0 l0 u0) w
      = (Some ((rc, (hp, hh, lf, uf)), w'), t)
      /\ (rc = StatusCode_int Success <->
          exists f g,
            symbol_lookup "corehost_load" t = Some (Some f)
            /\ symbol_lookup "corehost_unload" t = Some (Some g))
      /\ (symbol_lookup "corehost_load" t = Some None
          \/ symbol_lookup "corehost_unload" t = Some None ->
          rc = StatusCode_int CoreHostEntryPointFailure)
      /\ (rc = StatusCode_int Success ->
          hh = os_load_handle t /\ hh <> None
          /\ Some lf = symbol_lookup "corehost_load" t
          /\ Some uf = symbol_lookup "corehost_unload" t)
      /\ (lookups t = []
          \/ lookups t = ["corehost_load"; "corehost_unload"]))
  /\ (exists rc out w' t,
      run h (load_host_library lib_dir h0 l0 m0 u0) w
      = (Some ((rc, out), w'), t)
      /\ main_validated_separately "corehost_main" rc t)
  /\ (exists rc out w' t,
      run h (load_host_library_with_return lib_dir h0 l0 m0 u0) w
      = (Some ((rc, out), w'), t)
      /\ main_validated_separately "corehost_main_with_output_buffer" rc t)
  /\ (forall file d exports,
         installed h lib_dir file d exports ->
         (exists w' t,
             run h (load_host_library_common lib_dir host_path0 h0 l0 u0) w
             = (Some ((StatusCode_int
                         (if resolves exports
                               ["corehost_load"; "corehost_unload"]
                          then Success else CoreHostEntryPointFailure),
                       (file, Some d,
                        exports "corehost_load", exports "corehost_unload")),
                      w'), t)
             /\ lookups t = ["corehost_load"; "corehost_unload"])
         /\ validates_main_after h
              (load_host_library lib_dir h0 l0 m0 u0)
              "corehost_main" d exports m0 w
         /\ validates_main_after h
              (load_host_library_with_return lib_dir h0 l0 m0 u0)
              "corehost_main_with_output_buffer" d exports m0 w).
Proof.
  split; [ | split; [ | split ] ].
  - unfold load_host_library_common.
    walk h; do 7 eexists; (split; [ reflexivity | ]); finish.
  - unfold load_host_library, load_host_library_common,
      main_validated_separately.
    walk h; do 4 eexists; (split; [ reflexivity | ]); finish.
  - unfold load_host_library_with_return, load_host_library_common,
      main_validated_separately.
    walk h; do 4 eexists; (split; [ reflexivity | ]); finish.
  - intros file d exports (Hfile & Hload & Hsym).
    unfold validates_main_after, resolves. cbn [forallb].
    exported Hsym ["corehost_load"; "corehost_unload"; "corehost_main";
                   "corehost_main_with_output_buffer"].
    all: cbn [forallb is_nullptr negb andb].
    all: unfold load_host_library, load_host_library_with_return,
           load_host_library_common.
    all: split; [ | split ].
    all: follow h; do 2 eexists; split; reflexivity.
Qed.

(** C9. The loader fails by stages.  When the hosting-policy module file
    is absent from the directory, [load_host_library_common] returns
    [CoreHostLibMissingFailure] having asked only whether the file exists:
    no [pal::load_library], no [pal::get_symbol].
    [CoreHostLibLoadFailure] is returned only when the file was found and
    [pal::load_library] rejected it, and [CoreHostEntryPointFailure] only
    when the library was loaded and a required symbol is null.  The two
    convention-specific loaders fail by the same stages, their required
    symbols including the convention's [main]. *)
Theorem loader_fails_by_stages
    (lib_dir host_path0 : string_t) (h0 : option dll_t)
    (l0 u0 m0 : option proc_t) (w : W) :
  (exists rc out w' t,
      run h (load_host_library_common lib_dir host_path0 h0 l0 u0) w
      = (Some ((rc, out), w'), t)
      /\ hd_error (calls t)
         = Some (library_exists_in_dir lib_dir LIBHOSTPOLICY_NAME)
      /\ failure_stages ["corehost_load"; "corehost_unload"] rc t)
  /\ (exists rc out w' t,
      run h (load_host_library lib_dir h0 l0 m0 u0) w
      = (Some ((rc, out), w'), t)
      /\ hd_error (calls t)
         = Some (library_exists_in_dir lib_dir LIBHOSTPOLICY_NAME)
      /\ failure_stages
           ["corehost_load"; "corehost_unload"; "corehost_main"] rc t)
  /\ (exists rc out w' t,
      run h (load_host_library_with_return lib_dir h0 l0 m0 u0) w
      = (Some ((rc, out), w'), t)
      /\ hd_error (calls t)
         = Some (library_exists_in_dir lib_dir LIBHOSTPOLICY_NAME)
      /\ failure_stages
           ["corehost_load"; "corehost_unload";
            "corehost_main_with_output_buffer"] rc t).
Proof.
  split; [ | split ].
  - unfold load_host_library_common, failure_stages.
    walk h; do 4 eexists; (split; [ reflexivity | ]); finish.
  - unfold load_host_library, load_host_library_common, failure_stages.
    walk h; do 4 eexists; (split; [ reflexivity | ]); finish.
  - unfold load_host_library_with_return, load_host_library_common,
      failure_stages.
    walk h; do 4 eexists; (split; [ reflexivity | ]); finish.
Qed.

End Loader.

(** ** The execution dispatcher *)

Section Dispatch.

Context {P : platform} {W : Type} (h : handler W).

(** X1. The dispatcher always returns: whatever the environment answers,
    [execute_app] and [execute_host_command] call through a function
    pointer and read the module handle only after the loader has set
    them. *)
Lemma execute_returns
    (cv : convention) (impl_dll_dir : string_t) (init : corehost_init_t)
    (argc : Z) (argv : list string_t) (w : W) :
  exists code w' t,
    run h (execute cv impl_dll_dir init argc argv) w = (Some (code, w'), t).
Proof.
  destruct cv as [ | result_buffer buffer_size required_buffer_size ];
    unfold execute, execute_app, execute_host_command, load_host_library,
      load_host_library_with_return, load_host_library_common.
  all: walk h; do 3 eexists; reflexivity.
Qed.

(** When the loader fails, the dispatcher returns the loader's code at
    once: no entry point of the module is called, and
    [pal::unload_library] is not called either, whether or not the library
    had been loaded. *)
Lemma loader_failure_short_circuits
    (cv : convention) (impl_dll_dir : string_t) (init : corehost_init_t)
    (argc : Z) (argv : list string_t) (w : W) :
  forall res t,
    run h (execute cv impl_dll_dir init argc argv) w = (res, t) ->
    load_answer t = None ->
    called is_lifecycle t = false
    /\ exists rc w',
        res = Some (StatusCode_int rc, w')
        /\ (rc = CoreHostLibMissingFailure \/ rc = CoreHostLibLoadFailure
            \/ rc = CoreHostEntryPointFailure).
Proof.
  name_run.
  destruct cv as [ | result_buffer buffer_size required_buffer_size ];
    unfold execute, execute_app, execute_host_command, load_host_library,
      load_host_library_with_return, load_host_library_common.
  all: walk h; cbn; intro Hload; try discriminate Hload.
  all: split; [ reflexivity | ]; do 2 eexists; split; [ reflexivity | ]; tauto.
Qed.

(** C1. In a run of [execute_app] or [execute_host_command] in which the
    library loads and its three entry points resolve, the module's [load]
    is called and the last call made is [pal::unload_library] on the
    loaded module.  When [load] returns a non-zero value, neither [main]
    nor [unload] is called and that value is returned; when it returns
    zero, [main] is called, then [unload], then [pal::unload_library],
    and the value [main] returned is returned whatever it is.

    The first part says this of every environment, for the runs in which
    the three lookups gave non-null pointers.  The second part says that
    these runs are there: in an environment in which the module is
    installed and exports the three entry points, the run of either
    dispatcher loads the module and its lookups give the three exported
    pointers. *)
Theorem load_failure_skips_main_and_unload
    (cv : convention) (impl_dll_dir : string_t) (init : corehost_init_t)
    (argc : Z) (argv : list string_t) (w : W) :
  (forall res t,
      run h (execute cv impl_dll_dir init argc argv) w = (res, t) ->
      forall lf uf mf,
        symbol_lookup "corehost_load" t = Some (Some lf) ->
        symbol_lookup "corehost_unload" t = Some (Some uf) ->
        symbol_lookup (main_symbol cv) t = Some (Some mf) ->
        exists d intf r,
          os_load t = Some (Some d)
          /\ load_answer t = Some r
          /\ last_call t = Some (pal_unload_library d)
          /\ (r <> 0 ->
              called is_corehost_main t = false
              /\ called is_corehost_unload t = false
              /\ calls_of is_lifecycle t
                 = [corehost_load lf intf; pal_unload_library d]
              /\ exists w', res = Some (r, w'))
          /\ (r = 0 ->
              exists rm w',
                main_answer t = Some rm
                /\ calls_of is_lifecycle t
                   = [corehost_load lf intf; main_call cv mf argc argv;
                      corehost_unload uf; pal_unload_library d]
                /\ res = Some (rm, w')))
  /\ (forall file d exports lf uf mf,
         installed h impl_dll_dir file d exports ->
         exports "corehost_load" = Some lf ->
         exports "corehost_unload" = Some uf ->
         exports (main_symbol cv) = Some mf ->
         exists res t,
           run h (execute cv impl_dll_dir init argc argv) w = (res, t)
           /\ os_load t = Some (Some d)
           /\ symbol_lookup "corehost_load" t = Some (Some lf)
           /\ symbol_lookup "corehost_unload" t = Some (Some uf)
           /\ symbol_lookup (main_symbol cv) t = Some (Some mf)
           /\ called is_corehost_load t = true
           /\ called is_pal_unload_library t = true).
Proof.
  split.
  - name_run.
    destruct cv as [ | result_buffer buffer_size required_buffer_size ];
      unfold execute, execute_app, execute_host_command, load_host_library,
        load_host_library_with_return, load_host_library_common, main_symbol,
        main_call.
    all: walk h; intros lf uf mf Hl Hu Hm; cbn in Hl, Hu, Hm;
      try discriminate.
    all: injection Hl as <-; injection Hu as <-; injection Hm as <-.
    all: do 3 eexists; cbn.
    all: repeat (split; [ reflexivity | ]).
    all: split; intro Hr.
    all: try (apply Z.eqb_neq in Hr; congruence).
    all: try (apply Z.eqb_eq in Hr; congruence).
    all: repeat split; eauto.
  - intros file d exports lf uf mf (Hfile & Hload & Hsym) Hlf Huf Hmf.
    pose proof (Hsym "corehost_load") as Hl. rewrite Hlf in Hl.
    pose proof (Hsym "corehost_unload") as Hu. rewrite Huf in Hu.
    pose proof (Hsym (main_symbol cv)) as Hm. rewrite Hmf in Hm.
    clear Hsym Hlf Huf Hmf.
    destruct cv as [ | result_buffer buffer_size required_buffer_size ];
      unfold execute, execute_app, execute_host_command, load_host_library,
        load_host_library_with_return, load_host_library_common, main_symbol
        in *.
    all: follow h; do 2 eexists; (split; [ reflexivity | ]).
    all: repeat split; reflexivity.
Qed.

End Dispatch.
(** ** The resolution facade *)

Section Facade.

Context {P : platform} {W : Type} (h : handler W).

(** C3. An invalid buffer argument is rejected before anything else is
    done: with a negative [buffer_size], or a positive [buffer_size] and a
    null [buffer], [hostfxr_resolve_sdk] returns -1, its invalid-argument
    code, and [hostfxr_get_native_search_directories], which also rejects a
    null [required_buffer_size], returns [InvalidArgFailure]; both have
    then called the diagnostics sink only. *)
Theorem invalid_arguments_rejected_first :
  (forall exe_dir working_dir buffer buffer_size (w : W),
      buffer_size < 0 \/ (0 < buffer_size /\ buffer = None) ->
      exists w' t,
        run h (hostfxr_resolve_sdk exe_dir working_dir buffer buffer_size) w
        = (Some ((-1, buffer), w'), t)
        /\ forallb is_trace (calls t) = true
        /\ calls t
           = [trace_setup;
              trace_info
                "--- Invoked hostfxr [commit hash: %s] hostfxr_resolve_sdk"
                [REPO_COMMIT_HASH];
              trace_error
                "hostfxr_resolve_sdk received an invalid argument." []])
  /\ (forall argc argv buffer buffer_size required_buffer_size (w : W),
      buffer_size < 0 \/ (0 < buffer_size /\ buffer = None)
      \/ required_buffer_size = None ->
      exists w' t,
        run h (hostfxr_get_native_search_directories
                 argc argv buffer buffer_size required_buffer_size) w
        = (Some (StatusCode_int InvalidArgFailure, w'), t)
        /\ forallb is_trace (calls t) = true
        /\ calls t
           = [trace_setup;
              trace_info
                "--- Invoked hostfxr_get_native_search_directories [commit hash: %s] main"
                [REPO_COMMIT_HASH];
              trace_error
                "hostfxr_get_native_search_directories received an invalid argument."
                []]).
Proof.
  split.
  - intros exe_dir working_dir buffer buffer_size w Hbad.
    unfold hostfxr_resolve_sdk.
    replace ((buffer_size <? 0) || (buffer_size >? 0) && is_nullptr buffer)
      with true.
    + walk h. do 2 eexists. repeat split; reflexivity.
    + symmetry. apply orb_true_iff.
      destruct Hbad as [Hneg | [Hpos ->]]; [ left | right ].
      * apply Z.ltb_lt; exact Hneg.
      * apply andb_true_iff. split; [ | reflexivity ].
        apply Z.gtb_lt; exact Hpos.
  - intros argc argv buffer buffer_size required_buffer_size w Hbad.
    unfold hostfxr_get_native_search_directories.
    replace ((buffer_size <? 0) || (buffer_size >? 0) && is_nullptr buffer
             || is_nullptr required_buffer_size)
      with true.
    + walk h. do 2 eexists. repeat split; reflexivity.
    + symmetry. apply orb_true_iff.
      destruct Hbad as [Hneg | [[Hpos ->] | ->]]; [ left | left | right ].
      * apply orb_true_iff. left. apply Z.ltb_lt; exact Hneg.
      * apply orb_true_iff. right.
        apply andb_true_iff. split; [ | reflexivity ].
        apply Z.gtb_lt; exact Hpos.
      * reflexivity.
Qed.

(** What a run of [hostfxr_resolve_sdk] in which the resolver found an SDK
    does with the caller's buffer. *)
Lemma hostfxr_resolve_sdk_found
    (exe_dir working_dir : c_str_t) (buffer : buffer_t) (buffer_size : Z)
    (w : W) :
  forall res t,
    run h (hostfxr_resolve_sdk exe_dir working_dir buffer buffer_size) w
    = (res, t) ->
    buffer_size <= INT32_MAX ->
    forall cli_sdk,
      sdk_answer t = Some (true, cli_sdk) ->
      0 <= buffer_size
      /\ (buffer_size <= size cli_sdk ->
          exists w',
            res = Some ((int32_of (size_t_of (size cli_sdk + 1)), buffer), w'))
      /\ (size cli_sdk < buffer_size ->
          exists cells,
            buffer = Some cells
            /\ ((String.length cli_sdk < List.length cells)%nat ->
                exists w',
                  res = Some ((size cli_sdk + 1,
                               Some (terminated_copy cli_sdk cells)), w'))
            /\ ((List.length cells <= String.length cli_sdk)%nat ->
                res = None)).
Proof.
  name_run. intros Hmax cli_sdk.
  unfold hostfxr_resolve_sdk. reduce.
  answer h. answer h.
  destruct ((buffer_size <? 0) || (buffer_size >? 0) && is_nullptr buffer)
    eqn:Hvalid; reduce.
  { answer h. cbn. discriminate. }
  apply buffer_arguments_valid in Hvalid. destruct Hvalid as [Hnonneg Hnull].
  answer h; reduce.
  2: { cbn. discriminate. }
  pose proof (size_nonneg b) as Hsize.
  rewrite (size_t_of_small buffer_size) by lia.
  destruct (size b <? buffer_size) eqn:Hcmp; reduce.
  - (* the path and its terminator are within [buffer_size] *)
    apply Z.ltb_lt in Hcmp.
    rewrite !size_t_of_small by lia.
    destruct Hnull as [cells ->]; [ lia | ].
    destruct (Nat.lt_ge_cases (String.length b) (List.length cells))
      as [Hroom | Hroom].
    + destruct (copy_and_terminate b cells (buffer_size - 1))
        as (cells1 & Hcopy & Hpoke); [ lia | exact Hroom | ].
      rewrite Hcopy. reduce.
      fold (size b). rewrite Z.eqb_refl. reduce.
      apply Z.ltb_lt in Hcmp. rewrite Hcmp. reduce.
      rewrite Hpoke. reduce.
      cbn [sdk_answer first_answer ev].
      intros Hsdk. injection Hsdk as <-.
      split; [ exact Hnonneg | ].
      split; [ intro; apply Z.ltb_lt in Hcmp; lia | ].
      intros _. eexists. split; [ reflexivity | ].
      split; [ | intro; lia ].
      intros _. eexists.
      rewrite int32_of_small
        by (apply Z.ltb_lt in Hcmp; unfold INT32_MIN; lia).
      reflexivity.
    + destruct (copy_and_terminate_overflow b cells (buffer_size - 1))
        as [Hcopy | (cells1 & Hcopy & Hpoke)]; [ lia | exact Hroom | | ].
      * rewrite Hcopy. reduce.
        cbn [sdk_answer first_answer ev].
        intros Hsdk. injection Hsdk as <-.
        split; [ exact Hnonneg | ].
        split; [ intro; lia | ].
        intros _. eexists. split; [ reflexivity | ].
        split; [ intro; lia | reflexivity ].
      * rewrite Hcopy. reduce.
        fold (size b). rewrite Z.eqb_refl. reduce.
        apply Z.ltb_lt in Hcmp. rewrite Hcmp. reduce.
        rewrite Hpoke. reduce.
        cbn [sdk_answer first_answer ev].
        intros Hsdk. injection Hsdk as <-.
        split; [ exact Hnonneg | ].
        split; [ intro; apply Z.ltb_lt in Hcmp; lia | ].
        intros _. eexists. split; [ reflexivity | ].
        split; [ intro; lia | reflexivity ].
  - (* the buffer is too small *)
    answer h. reduce.
    cbn [sdk_answer first_answer ev].
    intros Hsdk. injection Hsdk as <-.
    apply Z.ltb_ge in Hcmp.
    split; [ exact Hnonneg | ].
    split; [ | intro; lia ].
    intros _. eexists. reflexivity.
Qed.

(** A run of [hostfxr_resolve_sdk] that returns a positive value is one in
    which the resolver found an SDK. *)
Lemma hostfxr_resolve_sdk_positive
    (exe_dir working_dir : c_str_t) (buffer : buffer_t) (buffer_size : Z)
    (w : W) :
  forall res t,
    run h (hostfxr_resolve_sdk exe_dir working_dir buffer buffer_size) w
    = (res, t) ->
    forall r buffer' w',
      res = Some ((r, buffer'), w') ->
      0 < r ->
      exists cli_sdk, sdk_answer t = Some (true, cli_sdk).
Proof.
  name_run. intros r buffer' w'.
  unfold hostfxr_resolve_sdk. reduce.
  answer h. answer h.
  destruct ((buffer_size <? 0) || (buffer_size >? 0) && is_nullptr buffer);
    reduce.
  { answer h. cbn. intros Hres Hpos. injection Hres as <- _ _. lia. }
  answer h; reduce.
  2: { cbn. intros Hres Hpos. injection Hres as <- _ _. lia. }
  match goal with
  | |- context [run h ?p ?w0] => destruct (run h p w0) as [res' t']
  end.
  cbn [sdk_answer first_answer ev fst snd].
  intros _ _. eexists. reflexivity.
Qed.

(** A run of [hostfxr_resolve_sdk] on valid buffer arguments consults the
    resolver. *)
Lemma hostfxr_resolve_sdk_consults
    (exe_dir working_dir : c_str_t) (cells : list char_t) (buffer_size : Z)
    (w : W) :
  0 <= buffer_size ->
  exists a,
    sdk_answer
      (snd (run h (hostfxr_resolve_sdk exe_dir working_dir (Some cells)
                     buffer_size) w))
    = Some a.
Proof.
  intro Hnonneg.
  unfold hostfxr_resolve_sdk. reduce.
  answer h. answer h.
  replace (buffer_size <? 0) with false by (symmetry; apply Z.ltb_ge; lia).
  rewrite andb_false_r. reduce.
  match goal with
  | |- context [h ?c ?w0] => destruct (h c w0) as [a wa]
  end.
  match goal with
  | |- context [run h ?p ?w0] => destruct (run h p w0) as [res' t']
  end.
  cbn [sdk_answer first_answer ev fst snd].
  eexists. reflexivity.
Qed.


(** The answer of the resolver in a run of [hostfxr_resolve_sdk] is what
    the environment answered to the question made of the caller's
    [exe_dir] and [working_dir]. *)
Lemma hostfxr_resolve_sdk_asks
    (exe_dir working_dir : c_str_t) (buffer : buffer_t) (buffer_size : Z)
    (w : W) :
  forall res t,
    run h (hostfxr_resolve_sdk exe_dir working_dir buffer buffer_size) w
    = (res, t) ->
    forall a,
      sdk_answer t = Some a ->
      exists w0, a = fst (h (resolve_sdk_question exe_dir working_dir) w0).
Proof.
  name_run. intro a.
  unfold hostfxr_resolve_sdk, resolve_sdk_question. reduce.
  answer h. answer h.
  destruct ((buffer_size <? 0) || (buffer_size >? 0) && is_nullptr buffer);
    reduce.
  { answer h. cbn. discriminate. }
  intro Ha.
  match goal with
  | _ : context [h ?c ?w0] |- _ =>
      exists w0; revert Ha; destruct (h c w0) as [a0 wa]
  end.
  match goal with
  | |- context [run h ?p ?w0] => destruct (run h p w0) as [res' t']
  end.
  cbn [sdk_answer first_answer ev fst snd].
  intro Ha. injection Ha as <-. reflexivity.
Qed.

(** C4. A successful call of [hostfxr_resolve_sdk], one that returns a
    positive [r] no greater than its [buffer_size], can be repeated with
    the same [exe_dir] and [working_dir] and with [buffer_size] exactly
    [r]: where the resolver has one answer to the question made of these
    two directories, the second call, from whatever state, succeeds
    again, returns [r] again, and the first [r] cells of its buffer hold
    the same null-terminated string as those of the first call's buffer.
    The path is taken to need a capacity that is an [int32_t] value, and
    the second buffer to be an array of at least [r] cells. *)
Theorem resolve_sdk_retry_reproduces
    (exe_dir working_dir : c_str_t) (buffer1 : buffer_t) (size1 : Z)
    (cells2 : list char_t) (w1 w2 : W) :
  stable h (resolve_sdk_question exe_dir working_dir) ->
  forall res1 t1,
    run h (hostfxr_resolve_sdk exe_dir working_dir buffer1 size1) w1
    = (res1, t1) ->
    forall r buffer1' w1',
      res1 = Some ((r, buffer1'), w1') ->
      0 < r <= size1 ->
      size1 <= INT32_MAX ->
      (forall found cli_sdk,
          sdk_answer t1 = Some (found, cli_sdk) ->
          size cli_sdk + 1 <= INT32_MAX) ->
      r <= Z.of_nat (List.length cells2) ->
      exists cli_sdk cells1' cells2' w2' t2,
        sdk_answer t1 = Some (true, cli_sdk)
        /\ buffer1' = Some cells1'
        /\ run h (hostfxr_resolve_sdk exe_dir working_dir (Some cells2) r) w2
           = (Some ((r, Some cells2'), w2'), t2)
        /\ sdk_answer t2 = Some (true, cli_sdk)
        /\ firstn (Z.to_nat r) cells1' = list_ascii_of_string cli_sdk ++ [NUL]
        /\ firstn (Z.to_nat r) cells2' = list_ascii_of_string cli_sdk ++ [NUL].
Proof.
  intros Hstable res1 t1 Hrun1 r buffer1' w1' Hres1 Hr Hmax Hfits Hcells2.
  destruct (hostfxr_resolve_sdk_positive _ _ _ _ _ _ _ Hrun1 _ _ _ Hres1)
    as [cli_sdk Hsdk1]; [ lia | ].
  specialize (Hfits _ _ Hsdk1).
  pose proof (size_nonneg cli_sdk) as Hsize.
  destruct (hostfxr_resolve_sdk_found _ _ _ _ _ _ _ Hrun1 Hmax _ Hsdk1)
    as (_ & Hsmall1 & Hlarge1).
  (* the first call stored the path *)
  assert (Hstored : r = size cli_sdk + 1
                    /\ exists cells1,
                         buffer1' = Some (terminated_copy cli_sdk cells1)).
  { destruct (Z_le_gt_dec size1 (size cli_sdk)) as [Hle | Hgt].
    - destruct (Hsmall1 Hle) as [w' Hres]. rewrite Hres in Hres1.
      injection Hres1 as Hret _ _.
      rewrite size_t_of_small, int32_of_small in Hret
        by (unfold INT32_MIN; lia).
      lia.
    - destruct Hlarge1 as (cells1 & -> & Hroom & Hnone); [ lia | ].
      destruct (Nat.lt_ge_cases (String.length cli_sdk) (List.length cells1))
        as [Hlt | Hge].
      + destruct (Hroom Hlt) as [w' Hres]. rewrite Hres in Hres1.
        injection Hres1 as <- <- _. eauto.
      + rewrite (Hnone Hge) in Hres1. discriminate. }
  destruct Hstored as (-> & cells1 & ->).
  (* the second call puts the same question and has the same answer *)
  destruct (run h (hostfxr_resolve_sdk exe_dir working_dir (Some cells2)
                     (size cli_sdk + 1)) w2) as [res2 t2] eqn:Hrun2.
  destruct (hostfxr_resolve_sdk_consults
              exe_dir working_dir cells2 (size cli_sdk + 1) w2)
    as [a Ha]; [ lia | ].
  rewrite Hrun2 in Ha. cbn [snd] in Ha.
  destruct (hostfxr_resolve_sdk_asks _ _ _ _ _ _ _ Hrun1 _ Hsdk1)
    as [w0 Hasked1].
  destruct (hostfxr_resolve_sdk_asks _ _ _ _ _ _ _ Hrun2 _ Ha)
    as [w0' Hasked2].
  rewrite (Hstable w0' w0), <- Hasked1 in Hasked2. subst a.
  destruct (hostfxr_resolve_sdk_found _ _ _ _ _ _ _ Hrun2 Hfits _ Ha)
    as (_ & _ & Hlarge2).
  destruct Hlarge2 as (cells & Hcells & Hroom & _); [ lia | ].
  injection Hcells as <-.
  destruct Hroom as [w2' ->]; [ unfold size in Hcells2; lia | ].
  exists cli_sdk, (terminated_copy cli_sdk cells1),
    (terminated_copy cli_sdk cells2), w2', t2.
  replace (Z.to_nat (size cli_sdk + 1)) with (S (String.length cli_sdk))
    by (unfold size; lia).
  rewrite !firstn_terminated_copy.
  repeat split; reflexivity || assumption.
Qed.

(** C5. [hostfxr_resolve_sdk2] invokes the callback with the key
    [resolved_sdk_dir] if and only if the resolver reports success, then
    once and with the directory the resolver stored; it returns [Success],
    which is 0, exactly when the resolver succeeds and
    [SdkResolverResolveFailure] otherwise. *)
Theorem resolve_sdk2_reports_resolution
    (exe_dir working_dir : c_str_t) (flags : Z) (result : proc_t) (w : W) :
  exists rc w' t success dir gj,
    run h (hostfxr_resolve_sdk2 exe_dir working_dir flags (Some result)) w
    = (Some (rc, w'), t)
    /\ sdk_ex_answer t = Some (success, dir, gj)
    /\ (called (is_result_with_key resolved_sdk_dir) t = true
        <-> success = true)
    /\ (success = true ->
        calls_of (is_result_with_key resolved_sdk_dir) t
        = [resolve_sdk2_result result resolved_sdk_dir dir])
    /\ (rc = StatusCode_int Success <-> success = true)
    /\ (rc = 0 <-> success = true)
    /\ (success = false -> rc = StatusCode_int SdkResolverResolveFailure).
Proof.
  unfold hostfxr_resolve_sdk2.
  rewrite <- Success_is_zero.
  walk h; do 6 eexists; do 2 (split; [ reflexivity | ]); finish.
Qed.

(** C6. Take the resolver to report a global.json as the spec describes:
    its [global_json_path] output holds the path of the file when a
    discovered global.json constrained the resolution, and is empty when
    there is none or the one found is inert.  Then
    [hostfxr_resolve_sdk2] invokes the callback with the key
    [global_json_path] if and only if a global.json constrained the
    resolution, then once and with that path; with no global.json present
    it never does. *)
Theorem global_json_reported_iff_used
    (exe_dir working_dir : c_str_t) (flags : Z) (result : proc_t) (w : W) :
  forall res t,
    run h (hostfxr_resolve_sdk2 exe_dir working_dir flags (Some result)) w
    = (res, t) ->
    forall success dir g,
      sdk_ex_answer t = Some (success, dir, reported_global_json_path g) ->
      global_json_well_formed g ->
      (called (is_result_with_key global_json_path) t = true
       <-> exists path, g = global_json_used path)
      /\ (forall path,
             g = global_json_used path ->
             calls_of (is_result_with_key global_json_path) t
             = [resolve_sdk2_result result global_json_path path])
      /\ (g = global_json_absent ->
          called (is_result_with_key global_json_path) t = false).
Proof.
  name_run. intros success dir g.
  unfold hostfxr_resolve_sdk2.
  walk h; cbn [sdk_ex_answer first_answer ev];
    intros Hsdk Hwf; injection Hsdk as <- <- ->;
    match goal with
    | Hempty : negb (empty _) = _ |- _ =>
        apply (f_equal negb) in Hempty; rewrite negb_involutive in Hempty;
        cbn [negb] in Hempty
    end;
    destruct g as [ | path | path]; cbn in *;
    try discriminate; try contradiction;
    try match goal with
        | He : empty ?p = true, Hn : ?p <> "" |- _ =>
            apply empty_true in He; contradiction
        end;
    repeat split; intros;
    repeat match goal with
           | H : exists _, _ |- _ => destruct H
           end;
    try discriminate; try congruence; eauto.
Qed.

(** C10. When the resolver fails and still reports a non-empty
    global.json path, [hostfxr_resolve_sdk2] invokes the callback with the
    key [global_json_path] and that path, and makes no other callback
    call, before it returns [SdkResolverResolveFailure]. *)
Theorem global_json_reported_on_failure
    (exe_dir working_dir : c_str_t) (flags : Z) (result : proc_t) (w : W) :
  forall res t,
    run h (hostfxr_resolve_sdk2 exe_dir working_dir flags (Some result)) w
    = (res, t) ->
    forall dir gj,
      sdk_ex_answer t = Some (false, dir, gj) ->
      gj <> "" ->
      (exists w', res = Some (StatusCode_int SdkResolverResolveFailure, w'))
      /\ calls_of is_resolve_sdk2_result t
         = [resolve_sdk2_result result global_json_path gj]
      /\ last_call t = Some (resolve_sdk2_result result global_json_path gj).
Proof.
  name_run. intros dir gj.
  unfold hostfxr_resolve_sdk2.
  walk h; cbn [sdk_ex_answer first_answer ev];
    intros Hsdk Hgj; try discriminate Hsdk; injection Hsdk as <- <-.
  - repeat split. eexists. reflexivity.
  - match goal with
    | Hempty : negb (empty _) = false |- _ =>
        apply (f_equal negb) in Hempty; rewrite negb_involutive in Hempty;
        apply empty_true in Hempty; contradiction
    end.
Qed.

(** C7. [hostfxr_get_available_sdks] returns [Success] having invoked the
    callback exactly once: with count 0 and a null array when no SDK was
    discovered, and otherwise with the directories of all the discovered
    SDK entries, in the order of the entries.  Take the enumerator to
    return the entries ordered ascending by version, as the spec
    describes; then the directories are in ascending order of version. *)
Theorem available_sdks_reported_once
    (precedes : fx_ver_t -> fx_ver_t -> Prop)
    (exe_dir : c_str_t) (result : proc_t) (w : W) :
  exists w' t infos count dirs,
    run h (hostfxr_get_available_sdks exe_dir (Some result)) w
    = (Some (StatusCode_int Success, w'), t)
    /\ sdk_infos_answer t = Some infos
    /\ calls_of is_get_available_sdks_result t
       = [get_available_sdks_result result count dirs]
    /\ (infos = [] -> count = 0 /\ dirs = None)
    /\ (infos <> [] ->
        count = int32_of (size_t_of (Z.of_nat (List.length infos)))
        /\ dirs = Some (map full_path infos))
    /\ (ordered_by precedes infos ->
        forall sdk_dirs,
          dirs = Some sdk_dirs -> dirs_ascending precedes infos sdk_dirs).
Proof.
  unfold hostfxr_get_available_sdks. reduce.
  answer h. answer h.
  match goal with
  | |- context [h ?c ?w0] => destruct (h c w0) as [infos wa]
  end.
  cbn in infos.
  destruct infos as [ | info infos]; reduce; answer h; reduce.
  - do 5 eexists. do 3 (split; [ reflexivity | ]).
    repeat split; congruence.
  - do 5 eexists. do 3 (split; [ reflexivity | ]).
    rewrite collect_sdk_dirs_map, length_map.
    repeat split; try congruence.
    intros Hordered sdk_dirs Hdirs. injection Hdirs as <-.
    apply ordered_dirs_ascending. exact Hordered.
Qed.

End Facade.
(** ** More on the loader and the dispatcher *)

Section DispatchMore.

Context {P : platform} {W : Type} (h : handler W).

(** X2. A loader failure ends the dispatch at once.  When the module file is
    missing, the OS loader rejects it or one of the three required symbols
    is null, [execute_app] and [execute_host_command] return the loader's
    code, which is not [Success] and tells the three causes apart; the
    last thing they do is to report the error once, naming the module and
    the directory; no entry point of the module is called, nothing is
    unloaded and the pending trace messages are not flushed. *)
Lemma loader_failure_ends_dispatch
    (cv : convention) (impl_dll_dir : string_t) (init : corehost_init_t)
    (argc : Z) (argv : list string_t) (w : W) :
  forall res t,
    run h (execute cv impl_dll_dir init argc argv) w = (res, t) ->
    module_file t = Some None \/ os_load t = Some None
    \/ symbol_lookup "corehost_load" t = Some None
    \/ symbol_lookup "corehost_unload" t = Some None
    \/ symbol_lookup (main_symbol cv) t = Some None ->
    exists rc w',
      res = Some (StatusCode_int rc, w')
      /\ rc <> Success
      /\ (rc = CoreHostLibMissingFailure <-> module_file t = Some None)
      /\ (rc = CoreHostLibLoadFailure <-> os_load t = Some None)
      /\ (rc = CoreHostEntryPointFailure <->
          exists d, os_load t = Some (Some d))
      /\ called is_lifecycle t = false
      /\ called is_trace_flush t = false
      /\ calls_of is_trace_error t
         = [trace_error (loader_error_format cv)
              [LIBHOSTPOLICY_NAME; impl_dll_dir]]
      /\ last_call t
         = Some (trace_error (loader_error_format cv)
                   [LIBHOSTPOLICY_NAME; impl_dll_dir]).
Proof.
  name_run.
  destruct cv as [ | result_buffer buffer_size required_buffer_size ];
    unfold execute, execute_app, execute_host_command, load_host_library,
      load_host_library_with_return, load_host_library_common, main_symbol,
      loader_error_format.
  all: walk h; cbn; intro Hfail.
  all: try (repeat match type of Hfail with
                   | _ \/ _ => destruct Hfail as [Hfail | Hfail]
                   end; discriminate Hfail).
  all: clear Hfail; do 2 eexists; split; [ reflexivity | ].
  all: repeat split; try reflexivity; try discriminate.
  all: try (intro Hrc; discriminate Hrc).
  all: try (intros [d Hd]; discriminate Hd).
  all: eauto.
Qed.

(** X3. A module that was loaded but lacks a required symbol stays loaded:
    when [pal::load_library] succeeded and the lookup of [corehost_load],
    [corehost_unload] or the main entry point gave a null pointer, the
    dispatcher returns [CoreHostEntryPointFailure] without a call of
    [pal::unload_library]. *)
Lemma missing_symbol_leaves_module_loaded
    (cv : convention) (impl_dll_dir : string_t) (init : corehost_init_t)
    (argc : Z) (argv : list string_t) (w : W) :
  forall res t,
    run h (execute cv impl_dll_dir init argc argv) w = (res, t) ->
    symbol_lookup "corehost_load" t = Some None
    \/ symbol_lookup "corehost_unload" t = Some None
    \/ symbol_lookup (main_symbol cv) t = Some None ->
    exists d w',
      os_load t = Some (Some d)
      /\ called is_pal_unload_library t = false
      /\ res = Some (StatusCode_int CoreHostEntryPointFailure, w').
Proof.
  name_run.
  destruct cv as [ | result_buffer buffer_size required_buffer_size ];
    unfold execute, execute_app, execute_host_command, load_host_library,
      load_host_library_with_return, load_host_library_common, main_symbol.
  all: walk h; cbn; intro Hfail.
  all: try (repeat match type of Hfail with
                   | _ \/ _ => destruct Hfail as [Hfail | Hfail]
                   end; discriminate Hfail).
  all: do 2 eexists; repeat split; reflexivity.
Qed.

(** X4. The pending trace messages are flushed before the module is
    initialised: in a run that reaches the module's [load], the dispatcher
    has used the diagnostics sink exactly once, for [trace::flush], and
    has done so before the call of [load], which it makes once. *)
Lemma trace_flushed_before_load
    (cv : convention) (impl_dll_dir : string_t) (init : corehost_init_t)
    (argc : Z) (argv : list string_t) (w : W) :
  forall res t,
    run h (execute cv impl_dll_dir init argc argv) w = (res, t) ->
    forall r,
      load_answer t = Some r ->
      exists lf intf,
        symbol_lookup "corehost_load" t = Some (Some lf)
        /\ calls_of is_trace_or_load t = [trace_flush; corehost_load lf intf]
        /\ calls_of is_trace t = [trace_flush].
Proof.
  name_run.
  destruct cv as [ | result_buffer buffer_size required_buffer_size ];
    unfold execute, execute_app, execute_host_command, load_host_library,
      load_host_library_with_return, load_host_library_common.
  all: walk h; cbn; intros ra Hload; try discriminate Hload.
  all: do 2 eexists; repeat split; reflexivity.
Qed.

(** X5. The loader works on what it found.  In an environment in which
    [library_exists_in_dir] finds the module as [file],
    [load_host_library_common] returns having handed that file, and no
    other, to [pal::load_library], once, and it stores the file's path.
    When the OS loader rejects the file, no symbol is looked up, the code
    is [CoreHostLibLoadFailure] and the two function pointers are as they
    were.  When it loads the file as the module [d], the two symbols are
    looked up in [d], in the order [corehost_load], [corehost_unload],
    and nothing else is; the handle [d] and the two pointers looked up,
    null or not, are stored. *)
Lemma loader_uses_what_it_found
    (lib_dir host_path : string_t) (h_host : option dll_t)
    (load_fn unload_fn : option proc_t) (w : W) :
  forall file,
    answers h (library_exists_in_dir lib_dir LIBHOSTPOLICY_NAME) (Some file) ->
    exists rc host_path' h_host' load_fn' unload_fn' w' t,
      run h (load_host_library_common
               lib_dir host_path h_host load_fn unload_fn) w
      = (Some ((rc, (host_path', h_host', load_fn', unload_fn')), w'), t)
      /\ calls_of is_pal_load_library t = [pal_load_library file]
      /\ host_path' = file
      /\ uses_what_it_found t
      /\ (os_load t = Some None ->
          rc = StatusCode_int CoreHostLibLoadFailure
          /\ called is_pal_get_symbol t = false
          /\ load_fn' = load_fn /\ unload_fn' = unload_fn)
      /\ (forall d,
             os_load t = Some (Some d) ->
             calls_of is_pal_get_symbol t
             = [pal_get_symbol d "corehost_load";
                pal_get_symbol d "corehost_unload"]
             /\ h_host' = Some d
             /\ symbol_lookup "corehost_load" t = Some load_fn'
             /\ symbol_lookup "corehost_unload" t = Some unload_fn').
Proof.
  intros file Hfile.
  unfold load_host_library_common, uses_what_it_found.
  follow h; do 7 eexists; (split; [ reflexivity | ]); cbn; finish.
Qed.

End DispatchMore.
(** ** More on the resolution facade *)

(** A terminated copy fills the array it was stored in and leaves the
    cells from [n] on alone, for every [n] past the terminator. *)
Lemma length_terminated_copy (s : string_t) (cells : list char_t) :
  (String.length s < List.length cells)%nat ->
  List.length (terminated_copy s cells) = List.length cells.
Proof.
  intro Hroom. unfold terminated_copy.
  rewrite length_app, length_list_ascii_of_string. cbn [List.length].
  rewrite length_skipn. lia.
Qed.

Lemma skipn_terminated_copy (s : string_t) (cells : list char_t) (n : nat) :
  (String.length s < n)%nat ->
  skipn n (terminated_copy s cells) = skipn n cells.
Proof.
  intro Hpast. unfold terminated_copy.
  rewrite skipn_app, length_list_ascii_of_string.
  rewrite skipn_all2 by (rewrite length_list_ascii_of_string; lia).
  cbn [app].
  replace (n - String.length s)%nat with (S (n - S (String.length s))) by lia.
  rewrite skipn_cons, skipn_skipn. f_equal. lia.
Qed.

(** The flag test [(flags & disallow_prerelease) != 0] reads bit 0. *)
Lemma disallow_prerelease_bit (flags : Z) :
  negb (Z.land flags disallow_prerelease =? 0) = Z.testbit flags 0.
Proof.
  unfold disallow_prerelease.
  change 1 with (Z.ones 1). rewrite Z.land_ones by lia.
  change (2 ^ 1) with 2. rewrite <- Z.bit0_mod.
  destruct (Z.testbit flags 0); reflexivity.
Qed.

Section FacadeMore.

Context {P : platform} {W : Type} (h : handler W).

(** A run of [hostfxr_resolve_sdk] in which the resolver did not find an
    SDK, or was not consulted, returns the caller's buffer as it was. *)
Lemma hostfxr_resolve_sdk_not_found
    (exe_dir working_dir : c_str_t) (buffer : buffer_t) (buffer_size : Z)
    (w : W) :
  forall res t,
    run h (hostfxr_resolve_sdk exe_dir working_dir buffer buffer_size) w
    = (res, t) ->
    (forall cli_sdk, sdk_answer t <> Some (true, cli_sdk)) ->
    exists ret w', res = Some ((ret, buffer), w') /\ ret <= 0.
Proof.
  name_run.
  unfold hostfxr_resolve_sdk. reduce.
  answer h. answer h.
  destruct ((buffer_size <? 0) || (buffer_size >? 0) && is_nullptr buffer);
    reduce.
  { answer h. cbn. intros _. do 2 eexists. split; [ reflexivity | lia ]. }
  answer h; reduce.
  2: { cbn. intros _. do 2 eexists. split; [ reflexivity | lia ]. }
  match goal with
  | |- context [run h ?p ?w0] => destruct (run h p w0) as [res' t']
  end.
  cbn [sdk_answer first_answer ev fst snd].
  intros Hnot. destruct (Hnot b). reflexivity.
Qed.

(** X6. The value [hostfxr_resolve_sdk] returns tells the three outcomes
    apart.  For a run that returns and an SDK path that an [int32_t] can
    measure: the value is negative exactly when the resolver was not
    consulted, and then it is -1 and the buffer arguments were invalid; it
    is zero exactly when the resolver found no SDK; it is positive
    exactly when the resolver found one, and then it is the length of the
    path plus one.  A run that does not return a positive value leaves
    the buffer alone. *)
Lemma resolve_sdk_return_value
    (exe_dir working_dir : c_str_t) (buffer : buffer_t) (buffer_size : Z)
    (w : W) :
  forall res t,
    run h (hostfxr_resolve_sdk exe_dir working_dir buffer buffer_size) w
    = (res, t) ->
    forall ret buffer' w',
      res = Some ((ret, buffer'), w') ->
      (forall found cli_sdk,
          sdk_answer t = Some (found, cli_sdk) ->
          size cli_sdk + 1 <= INT32_MAX) ->
      (ret < 0 <-> sdk_answer t = None)
      /\ (ret < 0 ->
          ret = -1
          /\ (buffer_size < 0 \/ (0 < buffer_size /\ buffer = None)))
      /\ (ret = 0 <-> exists cli_sdk, sdk_answer t = Some (false, cli_sdk))
      /\ (0 < ret <->
          exists cli_sdk, sdk_answer t = Some (true, cli_sdk))
      /\ (forall found cli_sdk,
             sdk_answer t = Some (found, cli_sdk) ->
             found = true ->
             ret = size cli_sdk + 1)
      /\ (ret <= 0 -> buffer' = buffer).
Proof.
  name_run. intros ret buffer' w'.
  unfold hostfxr_resolve_sdk. reduce.
  answer h. answer h.
  destruct ((buffer_size <? 0) || (buffer_size >? 0) && is_nullptr buffer)
    eqn:Hvalid; reduce.
  { answer h. cbn. intros Hres _. injection Hres as <- <- _.
    apply orb_true_iff in Hvalid.
    repeat split; try lia; try discriminate; try reflexivity.
    - destruct Hvalid as [Hneg | Hnull].
      + left. apply Z.ltb_lt. exact Hneg.
      + right. apply andb_true_iff in Hnull. destruct Hnull as [Hpos Hnull].
        apply Z.gtb_lt in Hpos. destruct buffer; [ discriminate | ].
        split; [ lia | reflexivity ].
    - intros [s Hs]. discriminate Hs.
    - intros [s Hs]. discriminate Hs. }
  answer h; reduce.
  2: { cbn. intros Hres _. injection Hres as <- <- _.
       repeat split; try lia; try discriminate; try reflexivity; eauto.
       - intros [s Hs]. discriminate Hs.
       - intros found s Hs ->. discriminate Hs. }
  rewrite run_bind.
  match goal with
  | |- context [run h ?p ?w0] =>
      destruct (run h p w0) as [[[buffer1 w3] | ] t1]
  end.
  2: { cbn. discriminate. }
  cbn [run fst snd app sdk_answer first_answer ev].
  intros Hres Hfits. injection Hres as <- <- _.
  pose proof (Hfits true b eq_refl) as Hfit.
  pose proof (size_nonneg b) as Hsize.
  unfold INT32_MAX in Hfit.
  rewrite size_t_of_small by (unfold INT32_MAX; lia).
  rewrite int32_of_small by (unfold INT32_MIN, INT32_MAX; lia).
  repeat split; try lia; try discriminate; eauto.
  - intros [s Hs]. discriminate Hs.
  - intros found s Hs _. injection Hs as _ <-. reflexivity.
Qed.

(** X7. [hostfxr_resolve_sdk] stays within the buffer it was given.  When
    [buffer_size] is an [int32_t] value and a non-null [buffer] has at
    least [buffer_size] cells, every run returns; the array keeps its
    length, its cells from index [buffer_size] on are not touched, a null
    buffer stays null, and the buffer is changed at all only in a run that
    returns a value between 1 and [buffer_size]. *)
Lemma resolve_sdk_stays_within_buffer
    (exe_dir working_dir : c_str_t) (buffer : buffer_t) (buffer_size : Z)
    (w : W) :
  forall res t,
    run h (hostfxr_resolve_sdk exe_dir working_dir buffer buffer_size) w
    = (res, t) ->
    buffer_size <= INT32_MAX ->
    (forall cells,
        buffer = Some cells -> buffer_size <= Z.of_nat (List.length cells)) ->
    exists ret buffer' w',
      res = Some ((ret, buffer'), w')
      /\ (buffer = None -> buffer' = None)
      /\ (forall cells,
             buffer = Some cells ->
             exists cells',
               buffer' = Some cells'
               /\ List.length cells' = List.length cells
               /\ skipn (Z.to_nat buffer_size) cells'
                  = skipn (Z.to_nat buffer_size) cells)
      /\ (buffer' <> buffer -> 0 < ret <= buffer_size).
Proof.
  intros res t Hrun Hmax Hcells.
  assert (Hsame :
            forall ret w',
              res = Some ((ret, buffer), w') ->
              exists ret buffer' w',
                res = Some ((ret, buffer'), w')
                /\ (buffer = None -> buffer' = None)
                /\ (forall cells,
                       buffer = Some cells ->
                       exists cells',
                         buffer' = Some cells'
                         /\ List.length cells' = List.length cells
                         /\ skipn (Z.to_nat buffer_size) cells'
                            = skipn (Z.to_nat buffer_size) cells)
                /\ (buffer' <> buffer -> 0 < ret <= buffer_size)).
  { intros ret w' ->. exists ret, buffer, w'.
    split; [ reflexivity | ]. split; [ tauto | ].
    split; [ | intro Hne; destruct Hne; reflexivity ].
    intros cells ->. exists cells. repeat split; reflexivity. }
  destruct (sdk_answer t) as [[[ | ] cli_sdk] | ] eqn:Hsdk.
  - (* the resolver found an SDK *)
    destruct (hostfxr_resolve_sdk_found h _ _ _ _ _ _ _ Hrun Hmax _ Hsdk)
      as (Hnonneg & Hsmall & Hlarge).
    destruct (Z_le_gt_dec buffer_size (size cli_sdk)) as [Hle | Hgt].
    + destruct (Hsmall Hle) as [w' Hres]. eapply Hsame. exact Hres.
    + destruct Hlarge as (cells & -> & Hroom & _); [ lia | ].
      pose proof (Hcells cells eq_refl) as Hlen. unfold size in Hgt.
      destruct Hroom as [w' Hres]; [ lia | ].
      do 3 eexists. split; [ exact Hres | ].
      split; [ discriminate | ].
      split; [ | intros _; unfold size; lia ].
      intros cells0 Hcells0. injection Hcells0 as <-.
      eexists. split; [ reflexivity | ].
      split; [ apply length_terminated_copy; lia | ].
      apply skipn_terminated_copy. lia.
  - destruct (hostfxr_resolve_sdk_not_found _ _ _ _ _ _ _ Hrun)
      as (ret & w' & Hres & _).
    + intros s Hs. rewrite Hsdk in Hs. discriminate Hs.
    + eapply Hsame. exact Hres.
  - destruct (hostfxr_resolve_sdk_not_found _ _ _ _ _ _ _ Hrun)
      as (ret & w' & Hres & _).
    + intros s Hs. rewrite Hsdk in Hs. discriminate Hs.
    + eapply Hsame. exact Hres.
Qed.

(** X8. Apart from tracing, [hostfxr_resolve_sdk2] consults the resolver
    once and then makes the callbacks the resolver's answer calls for,
    and nothing else.  The resolver is given the empty string in place of
    a null directory and bit 0 of [flags] as [disallow_prerelease],
    whatever the other bits are.  With a callback that is not null, the
    call returns; the callbacks are the resolved directory if the
    resolution succeeded, then the path of global.json if that is not
    empty, so at most two and never twice the same key, and none for a
    failure without a global.json; the value returned is [Success] or
    [SdkResolverResolveFailure] as the resolver succeeded or not.  The
    callback is called without a test for null: with a null callback the
    call returns only when no callback is due, that is when the resolver
    failed and reported no global.json, and otherwise stops right after
    the resolution. *)
Lemma resolve_sdk2_callbacks_in_order
    (exe_dir working_dir : c_str_t) (flags : Z) (result : option proc_t)
    (w : W) :
  exists res t success dir gj,
    run h (hostfxr_resolve_sdk2 exe_dir working_dir flags result) w = (res, t)
    /\ sdk_ex_answer t = Some (success, dir, gj)
    /\ calls_of is_resolver t
       = [resolve_sdk_dotnet_path_ex (or_empty exe_dir) (or_empty working_dir)
            (Z.testbit flags 0)]
    /\ (forall f,
           result = Some f ->
           calls_of beyond_tracing t
           = resolve_sdk_dotnet_path_ex
               (or_empty exe_dir) (or_empty working_dir) (Z.testbit flags 0)
             :: resolve_sdk2_callbacks f success dir gj
           /\ (List.length (calls_of is_resolve_sdk2_result t) <= 2)%nat
           /\ exists w',
               res = Some (StatusCode_int
                             (if success then Success
                              else SdkResolverResolveFailure), w'))
    /\ (result = None ->
        calls_of beyond_tracing t
        = [resolve_sdk_dotnet_path_ex
             (or_empty exe_dir) (or_empty working_dir) (Z.testbit flags 0)]
        /\ (res = None <-> success = true \/ empty gj = false)
        /\ (res <> None ->
            exists w',
              res = Some (StatusCode_int SdkResolverResolveFailure, w'))).
Proof.
  unfold hostfxr_resolve_sdk2, resolve_sdk2_callbacks.
  rewrite disallow_prerelease_bit.
  destruct result as [f | ].
  all: walk h; do 5 eexists; (split; [ reflexivity | ]); cbn.
  all: do 2 (split; [ reflexivity | ]).
  all: repeat match goal with
              | H : negb (empty _) = _ |- _ =>
                  apply (f_equal negb) in H; rewrite negb_involutive in H;
                  cbn [negb] in H; rewrite H
              end.
  all: split; [ intros f0 Hf; try discriminate Hf | intro Hnull;
                                                    try discriminate Hnull ].
  all: try (injection Hf as <-).
  all: cbn; repeat split; try reflexivity; try discriminate; try lia;
    eauto.
  all: try (intros [Hs | Hg]; discriminate).
  all: try (intro Hres; destruct Hres; reflexivity).
Qed.

(** X9. The resolution entry points never touch the hosting-policy module:
    whatever the environment answers, no run of [hostfxr_resolve_sdk],
    [hostfxr_resolve_sdk2] or [hostfxr_get_available_sdks] looks for the
    module, loads or unloads a library, looks up or calls an entry point,
    or runs the muxer; and each starts by setting up tracing.  This holds
    of the runs that do not return as well, and for a null callback. *)
Lemma resolution_does_no_module_work :
  (forall exe_dir working_dir buffer buffer_size (w : W),
      exists res t,
        run h (hostfxr_resolve_sdk exe_dir working_dir buffer buffer_size) w
        = (res, t)
        /\ called is_module_work t = false
        /\ hd_error (calls t) = Some trace_setup)
  /\ (forall exe_dir working_dir flags result (w : W),
         exists res t,
           run h (hostfxr_resolve_sdk2 exe_dir working_dir flags result) w
           = (res, t)
           /\ called is_module_work t = false
           /\ hd_error (calls t) = Some trace_setup)
  /\ (forall exe_dir result (w : W),
         exists res t,
           run h (hostfxr_get_available_sdks exe_dir result) w = (res, t)
           /\ called is_module_work t = false
           /\ hd_error (calls t) = Some trace_setup).
Proof.
  split; [ | split ].
  - intros exe_dir working_dir buffer buffer_size w.
    unfold hostfxr_resolve_sdk.
    repeat first
      [ progress (walk h)
      | progress unfold assert
      | match goal with
        | |- context [basic_string_copy ?s ?c ?n] =>
            destruct (basic_string_copy s c n) as [[length1 cells1] | ]
        | |- context [poke ?c ?i ?x] => destruct (poke c i x) as [cells2 | ]
        | |- context [bind (match ?o with Some _ => _ | None => _ end) _] =>
            destruct o as [ ? | ]
        end ].
    all: do 2 eexists; split; [ reflexivity | split; reflexivity ].
  - intros exe_dir working_dir flags result w.
    unfold hostfxr_resolve_sdk2.
    destruct result as [f | ].
    all: walk h; do 2 eexists; (split; [ reflexivity | split; reflexivity ]).
  - intros exe_dir result w.
    unfold hostfxr_get_available_sdks.
    destruct result as [f | ].
    all: walk h.
    all: repeat first
           [ progress reduce
           | match goal with
             | |- context [h _ _] => answer h
             | |- context [bind (match ?l with [] => _ | _ :: _ => _ end) _] =>
                 destruct l
             end ].
    all: do 2 eexists; split; [ reflexivity | split; reflexivity ].
Qed.

(** X10. With valid arguments [hostfxr_get_native_search_directories] is a
    plain delegation: after the two trace calls it parses the startup
    information from [argv] and runs the muxer once, on the command
    [get-native-search-directories], the parsed information and the
    caller's buffer, size and output pointer as they were given; it
    returns what the muxer returned, whatever that is. *)
Lemma native_search_directories_delegates
    (argc : Z) (argv : list string_t) (buffer : buffer_t) (buffer_size : Z)
    (required_buffer_size : int32_ptr) (w : W) :
  0 <= buffer_size ->
  (0 < buffer_size -> buffer <> None) ->
  required_buffer_size <> None ->
  exists info rc w' t,
    run h (hostfxr_get_native_search_directories
             argc argv buffer buffer_size required_buffer_size) w
    = (Some (rc, w'), t)
    /\ calls_of beyond_tracing t
       = [host_startup_info_parse argc argv;
          fx_muxer_execute "get-native-search-directories" argc argv info
            buffer buffer_size required_buffer_size]
    /\ last t (ev trace_setup tt)
       = ev (fx_muxer_execute "get-native-search-directories" argc argv info
               buffer buffer_size required_buffer_size) rc
    /\ In (ev (host_startup_info_parse argc argv) info) t
    /\ called is_trace_error t = false.
Proof.
  intros Hnonneg Hbuffer Hrequired.
  unfold hostfxr_get_native_search_directories.
  replace ((buffer_size <? 0) || (buffer_size >? 0) && is_nullptr buffer
           || is_nullptr required_buffer_size)
    with false.
  - walk h. do 4 eexists. split; [ reflexivity | ].
    cbn. repeat split; try reflexivity. right. right. left. reflexivity.
  - symmetry. apply orb_false_iff. split.
    + apply orb_false_iff. split; [ apply Z.ltb_ge; exact Hnonneg | ].
      destruct buffer as [cells | ]; cbn.
      * apply andb_false_r.
      * rewrite andb_true_r. destruct (buffer_size >? 0) eqn:Hpos;
          [ | reflexivity ].
        apply Z.gtb_lt in Hpos. destruct (Hbuffer Hpos). reflexivity.
    + destruct required_buffer_size; [ reflexivity | ].
      destruct Hrequired. reflexivity.
Qed.

(** X11. The two startup entry points hand the whole command line to the
    muxer.  Each sets up tracing first and then runs the muxer exactly
    once, with an empty host command, the caller's [argc] and [argv]
    unchanged and no result buffer, and returns the muxer's exit code
    unchanged.  [hostfxr_main] takes the startup information from parsing
    [argv]; [hostfxr_main_startupinfo] takes the three paths it was given
    and parses nothing.  Neither loads the hosting-policy module
    itself. *)
Lemma startup_hands_over_to_muxer
    (argc : Z) (argv : list string_t) (w : W) :
  (exists info rc w' t,
      run h (hostfxr_main argc argv) w = (Some (rc, w'), t)
      /\ hd_error (calls t) = Some trace_setup
      /\ calls_of beyond_tracing t
         = [host_startup_info_parse argc argv;
            fx_muxer_execute "" argc argv info None 0 None]
      /\ In (ev (host_startup_info_parse argc argv) info) t
      /\ last t (ev trace_setup tt)
         = ev (fx_muxer_execute "" argc argv info None 0 None) rc)
  /\ (forall host_path dotnet_root app_path,
         exists rc w' t,
           run h (hostfxr_main_startupinfo
                    argc argv host_path dotnet_root app_path) w
           = (Some (rc, w'), t)
           /\ hd_error (calls t) = Some trace_setup
           /\ calls_of beyond_tracing t
              = [fx_muxer_execute "" argc argv
                   (mk_host_startup_info host_path dotnet_root app_path)
                   None 0 None]
           /\ last t (ev trace_setup tt)
              = ev (fx_muxer_execute "" argc argv
                      (mk_host_startup_info host_path dotnet_root app_path)
                      None 0 None) rc).
Proof.
  split.
  - unfold hostfxr_main. walk h. do 4 eexists. split; [ reflexivity | ].
    cbn. repeat split; try reflexivity. right. right. left. reflexivity.
  - intros host_path dotnet_root app_path.
    unfold hostfxr_main_startupinfo. walk h.
    do 3 eexists. split; [ reflexivity | ].
    cbn. repeat split; reflexivity.
Qed.

End FacadeMore.

(** * The properties on concrete runs *)

(** The runs below are those of the sample build. *)
#[local] Existing Instance sample_platform.

(** ** Runs of the loader and the dispatcher *)

(** A directory without the module: one question asked, nothing loaded. *)
Example load_from_empty_directory :
  run (scripted not_installed)
      (load_host_library_common (P := sample_platform) "/dotnet/host" "" None None None)
      0%nat
  = (Some ((StatusCode_int CoreHostLibMissingFailure, ("", None, None, None)),
           1%nat),
     [ev (library_exists_in_dir "/dotnet/host" "libhostpolicy.so") None]).
Proof. reflexivity. Qed.

(** A module without [corehost_unload]: both symbols are looked up, the
    convention's [main] is not. *)
Example load_module_without_unload :
  let '(res, t) :=
    run (scripted no_unload_symbol)
        (load_host_library (P := sample_platform) "/dotnet/host" None None None None)
        0%nat in
  res = Some ((StatusCode_int CoreHostEntryPointFailure,
               (Some 7, Some 1%positive, None, None)), 4%nat)
  /\ lookups t = ["corehost_load"; "corehost_unload"].
Proof. split; reflexivity. Qed.

(** A healthy module: loaded, initialised, run, shut down and unloaded,
    and the exit code of [main] returned. *)
Example run_healthy_module :
  let '(res, t) :=
    run (scripted healthy)
        (execute_app (P := sample_platform) "/dotnet/host" 0 2 ["dotnet"; "app.dll"])
        0%nat in
  res = Some (42, 11%nat)
  /\ calls t
     = [library_exists_in_dir "/dotnet/host" "libhostpolicy.so";
        pal_load_library "/dotnet/host/libhostpolicy.so";
        pal_get_symbol 7 "corehost_load";
        pal_get_symbol 7 "corehost_unload";
        pal_get_symbol 7 "corehost_main";
        trace_flush;
        get_host_init_data 0;
        corehost_load 1%positive 0;
        corehost_main 3%positive 2 ["dotnet"; "app.dll"];
        corehost_unload 2%positive;
        pal_unload_library 7].
Proof. split; reflexivity. Qed.

(** The resolver's answer for a caller without global.json. *)
Example resolve_sdk2_without_global_json :
  let '(res, t) :=
    run (scripted {| on_library_exists := None;
                     on_load_library := None;
                     on_get_symbol := fun _ => None;
                     on_corehost_load := 0;
                     on_corehost_main := 0;
                     on_corehost_unload := 0;
                     on_resolve_sdk := (true, "/dotnet/sdk/2.1.0");
                     on_resolve_sdk_ex := (true, "/dotnet/sdk/2.1.0", "");
                     on_get_all_sdk_infos := [];
                     on_muxer_execute := 0 |})
        (hostfxr_resolve_sdk2 (P := sample_platform) None None 1 (Some 9%positive))
        0%nat in
  res = Some (0, 4%nat)
  /\ calls_of is_resolve_sdk2_result t
     = [resolve_sdk2_result 9%positive resolved_sdk_dir "/dotnet/sdk/2.1.0"].
Proof. split; reflexivity. Qed.

(** ** Witnesses *)

(** The sample environments have the module installed. *)
Lemma healthy_installed :
  installed (P := sample_platform) (scripted healthy) "/dotnet/host"
    "/dotnet/host/libhostpolicy.so" 7 healthy_symbols.
Proof. repeat split. Qed.

Lemma failing_load_installed :
  installed (P := sample_platform) (scripted failing_load) "/dotnet/host"
    "/dotnet/host/libhostpolicy.so" 7 healthy_symbols.
Proof. repeat split. Qed.

(** C1 on a module whose [load] returns 5, run for an exit code, and on
    a healthy module, run for a host command that fills a buffer. *)
Lemma load_failure_skips_main_and_unload_witness :
  (let r := run (scripted failing_load)
              (execute (P := sample_platform) exit_code
                 "/dotnet/host" 0 2 ["dotnet"; "app.dll"])
              0%nat in
   load_answer (snd r) = Some 5
   /\ called is_corehost_main (snd r) = false
   /\ called is_corehost_unload (snd r) = false
   /\ last_call (snd r) = Some (pal_unload_library 7)
   /\ exists w', fst r = Some (5, w'))
  /\ (let r := run (scripted healthy)
                 (execute (P := sample_platform)
                    (output_buffer (Some (scratch 8)) 8 (Some 0))
                    "/dotnet/host" 0 1 ["get-native-search-directories"])
                 0%nat in
      load_answer (snd r) = Some 0
      /\ calls_of is_lifecycle (snd r)
         = [corehost_load 1%positive 0;
            corehost_main_with_output_buffer 4%positive 1
              ["get-native-search-directories"] (Some (scratch 8)) 8 (Some 0);
            corehost_unload 2%positive;
            pal_unload_library 7]
      /\ exists w', fst r = Some (42, w')).
Proof.
  cbv zeta. split.
  - destruct (load_failure_skips_main_and_unload
                (P := sample_platform) (scripted failing_load) exit_code
                "/dotnet/host" 0 2 ["dotnet"; "app.dll"] 0%nat)
      as [Hevery Hinstalled].
    destruct (Hinstalled _ _ _ 1%positive 2%positive 3%positive
                failing_load_installed eq_refl eq_refl eq_refl)
      as (res & t & Hrun & _ & Hl & Hu & Hm & _).
    destruct (Hevery _ _ Hrun _ _ _ Hl Hu Hm)
      as (d & intf & r & Hos & Hload & Hlast & Hnonzero & _).
    rewrite Hrun. cbn [fst snd].
    assert (Ht : t = snd (run (scripted failing_load)
                            (execute (P := sample_platform) exit_code
                               "/dotnet/host" 0 2 ["dotnet"; "app.dll"])
                            0%nat))
      by (rewrite Hrun; reflexivity).
    assert (Hd : d = 7)
      by (rewrite Ht in Hos; vm_compute in Hos; congruence).
    assert (Hr : r = 5)
      by (rewrite Ht in Hload; vm_compute in Hload; congruence).
    subst d r.
    destruct Hnonzero as (Hmain & Hunload & _ & Hres); [ discriminate | ].
    repeat split; assumption.
  - destruct (load_failure_skips_main_and_unload
                (P := sample_platform) (scripted healthy)
                (output_buffer (Some (scratch 8)) 8 (Some 0))
                "/dotnet/host" 0 1 ["get-native-search-directories"] 0%nat)
      as [Hevery Hinstalled].
    destruct (Hinstalled _ _ _ 1%positive 2%positive 4%positive
                healthy_installed eq_refl eq_refl eq_refl)
      as (res & t & Hrun & _ & Hl & Hu & Hm & _).
    destruct (Hevery _ _ Hrun _ _ _ Hl Hu Hm)
      as (d & intf & r & Hos & Hload & _ & _ & Hzero).
    rewrite Hrun. cbn [fst snd].
    assert (Ht : t = snd (run (scripted healthy)
                            (execute (P := sample_platform)
                               (output_buffer (Some (scratch 8)) 8 (Some 0))
                               "/dotnet/host" 0 1
                               ["get-native-search-directories"])
                            0%nat))
      by (rewrite Hrun; reflexivity).
    assert (Hd : d = 7)
      by (rewrite Ht in Hos; vm_compute in Hos; congruence).
    assert (Hr : r = 0)
      by (rewrite Ht in Hload; vm_compute in Hload; congruence).
    subst d r.
    destruct Hzero as (rm & w' & Hmain & Hcalls & Hres); [ reflexivity | ].
    assert (Hrm : rm = 42)
      by (rewrite Ht in Hmain; vm_compute in Hmain; congruence).
    assert (Hintf : corehost_load 1%positive intf = corehost_load 1%positive 0)
      by (rewrite Ht in Hcalls; vm_compute in Hcalls; congruence).
    subst rm. split; [ exact Hload | ]. split; [ | eauto ].
    rewrite Hcalls. injection Hintf as ->. reflexivity.
Defined.

(** C8 on a healthy module, whose three entry points resolve, and on a
    module built without [corehost_unload], in which the convention's
    [main] is not looked up. *)
Lemma entry_points_all_or_nothing_witness :
  (exists w' t,
      run (scripted healthy)
        (load_host_library (P := sample_platform)
           "/dotnet/host" None None None None)
        0%nat
      = (Some ((StatusCode_int Success,
                (Some 7, Some 1%positive, Some 3%positive, Some 2%positive)),
               w'), t)
      /\ lookups t = ["corehost_load"; "corehost_unload"; "corehost_main"])
  /\ (exists w' t,
         run (scripted no_unload_symbol)
           (load_host_library_with_return (P := sample_platform)
              "/dotnet/host" None None None None)
           0%nat
         = (Some ((StatusCode_int CoreHostEntryPointFailure,
                   (Some 7, Some 1%positive, None, None)),
                  w'), t)
         /\ lookups t = ["corehost_load"; "corehost_unload"]).
Proof.
  split.
  - destruct (entry_points_all_or_nothing
                (P := sample_platform) (scripted healthy)
                "/dotnet/host" "" None None None None 0%nat)
      as (_ & _ & _ & Hinstalled).
    destruct (Hinstalled _ _ _ healthy_installed) as (_ & Hmain & _).
    exact Hmain.
  - destruct (entry_points_all_or_nothing
                (P := sample_platform) (scripted no_unload_symbol)
                "/dotnet/host" "" None None None None 0%nat)
      as (_ & _ & _ & Hinstalled).
    destruct (Hinstalled
                "/dotnet/host/libhostpolicy.so" 7
                (on_get_symbol no_unload_symbol))
      as (_ & _ & Hmain).
    + repeat split.
    + exact Hmain.
Defined.


(** C3 on a negative [buffer_size] and on a null [buffer] of size 16. *)
Lemma invalid_arguments_rejected_first_witness :
  (exists w' t,
      run (scripted healthy)
        (hostfxr_resolve_sdk (P := sample_platform)
           None None (Some (scratch 4)) (-1))
        0%nat
      = (Some ((-1, Some (scratch 4)), w'), t)
      /\ forallb is_trace (calls t) = true)
  /\ (exists w' t,
         run (scripted healthy)
           (hostfxr_get_native_search_directories (P := sample_platform)
              1 ["app.dll"] None 16 (Some 0))
           0%nat
         = (Some (StatusCode_int InvalidArgFailure, w'), t)
         /\ forallb is_trace (calls t) = true).
Proof.
  destruct (invalid_arguments_rejected_first
              (P := sample_platform) (scripted healthy)) as [Hsdk Hdirs].
  split.
  - destruct (Hsdk None None (Some (scratch 4)) (-1) 0%nat)
      as (w' & t & Hrun & Htrace & _); [ left; reflexivity | ].
    exists w', t. split; assumption.
  - destruct (Hdirs 1 ["app.dll"] None 16 (Some 0) 0%nat)
      as (w' & t & Hrun & Htrace & _);
      [ right; left; split; reflexivity | ].
    exists w', t. split; assumption.
Defined.

(** C4 on a first call with an array of 64 cells and a second call, later
    and with an array of exactly the 18 cells the first call asked for. *)
Lemma resolve_sdk_retry_reproduces_witness :
  exists cells2' w2' t2,
    run (scripted healthy)
      (hostfxr_resolve_sdk (P := sample_platform)
         (Some "/dotnet") (Some "/work") (Some (scratch 18)) 18)
      5%nat
    = (Some ((18, Some cells2'), w2'), t2)
    /\ firstn 18 cells2' = list_ascii_of_string "/dotnet/sdk/2.1.0" ++ [NUL].
Proof.
  assert (Hstable :
            stable (scripted healthy)
              (resolve_sdk_question (Some "/dotnet") (Some "/work")))
    by (intros w w'; reflexivity).
  assert (Hr : 0 < 18 <= 64) by (split; [ reflexivity | discriminate ]).
  assert (Hmax : 64 <= INT32_MAX) by discriminate.
  assert (Hcells2 : 18 <= Z.of_nat (List.length (scratch 18)))
    by discriminate.
  assert (Hfits :
            forall found cli_sdk,
              sdk_answer
                (snd (run (scripted healthy)
                        (hostfxr_resolve_sdk (P := sample_platform)
                           (Some "/dotnet") (Some "/work")
                           (Some (scratch 64)) 64)
                        0%nat))
              = Some (found, cli_sdk) ->
              size cli_sdk + 1 <= INT32_MAX).
  { intros found cli_sdk Hsdk.
    assert (Hcli : cli_sdk = "/dotnet/sdk/2.1.0")
      by (vm_compute in Hsdk; congruence).
    subst cli_sdk. discriminate. }
  destruct (resolve_sdk_retry_reproduces
              (P := sample_platform) (scripted healthy)
              (Some "/dotnet") (Some "/work") (Some (scratch 64)) 64
              (scratch 18) 0%nat 5%nat Hstable
              _ _ (surjective_pairing _)
              18 (Some (terminated_copy "/dotnet/sdk/2.1.0" (scratch 64)))
              3%nat eq_refl Hr Hmax Hfits Hcells2)
    as (cli_sdk & cells1' & cells2' & w2' & t2 & Hsdk & _ & Hrun2 & _ & _
        & Hsame).
  assert (Hcli : cli_sdk = "/dotnet/sdk/2.1.0")
    by (vm_compute in Hsdk; congruence).
  subst cli_sdk.
  exists cells2', w2', t2. split; [ exact Hrun2 | exact Hsame ].
Defined.

(** C6 on a resolver whose answer names the global.json that pinned the
    version. *)
Lemma global_json_reported_iff_used_witness :
  called (is_result_with_key global_json_path)
    (snd (run (scripted healthy)
            (hostfxr_resolve_sdk2 (P := sample_platform)
               (Some "/dotnet") (Some "/work") 0 (Some 9%positive))
            0%nat))
  = true.
Proof.
  destruct (global_json_reported_iff_used
              (P := sample_platform) (scripted healthy)
              (Some "/dotnet") (Some "/work") 0 9%positive 0%nat
              _ _ (surjective_pairing _)
              true "/dotnet/sdk/2.1.0" (global_json_used "/work/global.json")
              eq_refl)
    as [[_ Hused] _]; [ cbn; discriminate | ].
  apply Hused. eexists. reflexivity.
Defined.

(** C7 on the spec's example: the SDKs 1.0.0, 2.1.0 and 3.0.0-preview. *)
Lemma available_sdks_reported_once_witness :
  exists w' t,
    run (scripted healthy)
      (hostfxr_get_available_sdks (P := sample_platform)
         (Some "/dotnet") (Some 9%positive))
      0%nat
    = (Some (0, w'), t)
    /\ calls_of is_get_available_sdks_result t
       = [get_available_sdks_result 9%positive 3
            (Some ["/dotnet/sdk/1.0.0"; "/dotnet/sdk/2.1.0";
                   "/dotnet/sdk/3.0.0-preview"])]
    /\ dirs_ascending numeric_precedes sample_sdk_infos
         ["/dotnet/sdk/1.0.0"; "/dotnet/sdk/2.1.0";
          "/dotnet/sdk/3.0.0-preview"].
Proof.
  destruct (available_sdks_reported_once
              (P := sample_platform) (scripted healthy) numeric_precedes
              (Some "/dotnet") 9%positive 0%nat)
    as (w' & t & infos & count & dirs & Hrun & Hinfos & Hcalls & _
        & Hnonempty & Hascending).
  assert (Ht : t = snd (run (scripted healthy)
                          (hostfxr_get_available_sdks (P := sample_platform)
                             (Some "/dotnet") (Some 9%positive))
                          0%nat))
    by exact (eq_sym (f_equal snd Hrun)).
  assert (Hsample : infos = sample_sdk_infos)
    by (rewrite Ht in Hinfos; vm_compute in Hinfos; injection Hinfos as <-;
        reflexivity).
  subst infos.
  destruct Hnonempty as [Hcount Hdirs]; [ discriminate | ].
  exists w', t. split; [ exact Hrun | ].
  split.
  - rewrite Hcalls, Hcount, Hdirs. reflexivity.
  - apply Hascending; [ | exact Hdirs ].
    unfold ordered_by, sample_sdk_infos, numeric_precedes.
    repeat constructor; cbn; lia.
Defined.

(** C10 on a resolver that found the global.json and no SDK to match
    it. *)
Lemma global_json_reported_on_failure_witness :
  let r := run (scripted unsatisfiable_pin)
             (hostfxr_resolve_sdk2 (P := sample_platform)
                None (Some "/work") 0 (Some 9%positive))
             0%nat in
  (exists w', fst r = Some (StatusCode_int SdkResolverResolveFailure, w'))
  /\ calls_of is_resolve_sdk2_result (snd r)
     = [resolve_sdk2_result 9%positive global_json_path "/work/global.json"]
  /\ last_call (snd r)
     = Some (resolve_sdk2_result 9%positive global_json_path
               "/work/global.json").
Proof.
  cbv zeta.
  apply (global_json_reported_on_failure
           (P := sample_platform) (scripted unsatisfiable_pin)
           None (Some "/work") 0 9%positive 0%nat
           _ _ (surjective_pairing _) "" "/work/global.json" eq_refl).
  discriminate.
Defined.

(** ** More runs of the loader and the dispatcher *)

(** A directory without the module, under the exit-code convention: the
    dispatcher returns [CoreHostLibMissingFailure] and the module's life
    never starts. *)
Lemma loader_failure_ends_dispatch_witness :
  exists w',
    fst (run (scripted not_installed)
           (execute (P := sample_platform) exit_code "/dotnet/host" 0 1
              ["app.dll"])
           0%nat)
    = Some (StatusCode_int CoreHostLibMissingFailure, w')
    /\ called is_lifecycle
         (snd (run (scripted not_installed)
                 (execute (P := sample_platform) exit_code "/dotnet/host" 0 1
                    ["app.dll"])
                 0%nat))
       = false.
Proof.
  destruct (loader_failure_ends_dispatch
              (P := sample_platform) (scripted not_installed)
              exit_code "/dotnet/host" 0 1 ["app.dll"] 0%nat
              _ _ (surjective_pairing _))
    as (rc & w' & Hres & _ & Hmissing & _ & _ & Hlife & _).
  - left. reflexivity.
  - exists w'. split; [ | exact Hlife ].
    rewrite Hres. replace rc with CoreHostLibMissingFailure; [ reflexivity | ].
    symmetry. apply Hmissing. reflexivity.
Defined.

(** A module built without [corehost_unload], under the output-buffer
    convention: module 7 is loaded and left loaded. *)
Lemma missing_symbol_leaves_module_loaded_witness :
  exists d w',
    os_load
      (snd (run (scripted no_unload_symbol)
              (execute (P := sample_platform)
                 (output_buffer (Some (scratch 8)) 8 (Some 0))
                 "/dotnet/host" 0 1 ["app.dll"])
              0%nat))
    = Some (Some d)
    /\ called is_pal_unload_library
         (snd (run (scripted no_unload_symbol)
                 (execute (P := sample_platform)
                    (output_buffer (Some (scratch 8)) 8 (Some 0))
                    "/dotnet/host" 0 1 ["app.dll"])
                 0%nat))
       = false
    /\ fst (run (scripted no_unload_symbol)
              (execute (P := sample_platform)
                 (output_buffer (Some (scratch 8)) 8 (Some 0))
                 "/dotnet/host" 0 1 ["app.dll"])
              0%nat)
       = Some (StatusCode_int CoreHostEntryPointFailure, w').
Proof.
  apply (missing_symbol_leaves_module_loaded
           (P := sample_platform) (scripted no_unload_symbol)
           (output_buffer (Some (scratch 8)) 8 (Some 0))
           "/dotnet/host" 0 1 ["app.dll"] 0%nat
           _ _ (surjective_pairing _)).
  right. left. reflexivity.
Defined.

(** A module whose [load] returns 5: the flush came first. *)
Lemma trace_flushed_before_load_witness :
  exists lf intf,
    symbol_lookup "corehost_load"
      (snd (run (scripted failing_load)
              (execute (P := sample_platform) exit_code "/dotnet/host" 0 1
                 ["app.dll"])
              0%nat))
    = Some (Some lf)
    /\ calls_of is_trace_or_load
         (snd (run (scripted failing_load)
                 (execute (P := sample_platform) exit_code "/dotnet/host" 0 1
                    ["app.dll"])
                 0%nat))
       = [trace_flush; corehost_load lf intf]
    /\ calls_of is_trace
         (snd (run (scripted failing_load)
                 (execute (P := sample_platform) exit_code "/dotnet/host" 0 1
                    ["app.dll"])
                 0%nat))
       = [trace_flush].
Proof.
  apply (trace_flushed_before_load
           (P := sample_platform) (scripted failing_load)
           exit_code "/dotnet/host" 0 1 ["app.dll"] 0%nat
           _ _ (surjective_pairing _) 5).
  reflexivity.
Defined.

(** A healthy install: the file found is the file loaded, and the two
    symbols are looked up in module 7. *)
Lemma loader_uses_what_it_found_witness :
  exists rc w' t,
    run (scripted healthy)
      (load_host_library_common (P := sample_platform)
         "/dotnet/host" "" None None None)
      0%nat
    = (Some ((rc, ("/dotnet/host/libhostpolicy.so", Some 7,
                   Some 1%positive, Some 2%positive)), w'), t)
    /\ calls_of is_pal_load_library t
       = [pal_load_library "/dotnet/host/libhostpolicy.so"]
    /\ calls_of is_pal_get_symbol t
       = [pal_get_symbol 7 "corehost_load";
          pal_get_symbol 7 "corehost_unload"].
Proof.
  destruct (loader_uses_what_it_found
              (P := sample_platform) (scripted healthy)
              "/dotnet/host" "" None None None 0%nat
              "/dotnet/host/libhostpolicy.so")
    as (rc & hp & hh & lf & uf & w' & t & Hrun & Hload & Hpath & _ & _
        & Hloaded).
  - intro w. reflexivity.
  - assert (Ht : t = snd (run (scripted healthy)
                            (load_host_library_common (P := sample_platform)
                               "/dotnet/host" "" None None None)
                            0%nat))
      by (rewrite Hrun; reflexivity).
    destruct (Hloaded 7) as (Hsymbols & Hh & Hl & Hu).
    + rewrite Ht. reflexivity.
    + rewrite Ht in Hl, Hu. vm_compute in Hl, Hu.
      injection Hl as <-. injection Hu as <-. subst hp hh.
      exists rc, w', t. split; [ exact Hrun | ].
      split; [ exact Hload | exact Hsymbols ].
Defined.

(** ** More runs of the resolution facade *)

(** A call that returned 18 is one in which the resolver found an SDK,
    and 18 is the length of its path plus one. *)
Lemma resolve_sdk_return_value_witness :
  (exists cli_sdk,
      sdk_answer
        (snd (run (scripted healthy)
                (hostfxr_resolve_sdk (P := sample_platform)
                   (Some "/dotnet") (Some "/work") (Some (scratch 8)) 8)
                0%nat))
      = Some (true, cli_sdk))
  /\ 18 = size "/dotnet/sdk/2.1.0" + 1.
Proof.
  destruct (resolve_sdk_return_value
              (P := sample_platform) (scripted healthy)
              (Some "/dotnet") (Some "/work") (Some (scratch 8)) 8 0%nat
              _ _ (surjective_pairing _)
              18 (Some (scratch 8)) 4%nat)
    as (_ & _ & _ & Hpositive & Hlength & _).
  - reflexivity.
  - intros found cli_sdk Hsdk.
    assert (Hcli : cli_sdk = "/dotnet/sdk/2.1.0")
      by (vm_compute in Hsdk; congruence).
    subst cli_sdk. discriminate.
  - split.
    + apply Hpositive. reflexivity.
    + apply (Hlength true); reflexivity.
Defined.

(** An array of 32 cells passed with a [buffer_size] of 20: the call
    returns, and the last 12 cells are as they were. *)
Lemma resolve_sdk_stays_within_buffer_witness :
  exists ret cells' w',
    fst (run (scripted healthy)
           (hostfxr_resolve_sdk (P := sample_platform)
              (Some "/dotnet") (Some "/work") (Some (scratch 32)) 20)
           0%nat)
    = Some ((ret, Some cells'), w')
    /\ List.length cells' = 32%nat
    /\ skipn 20 cells' = scratch 12.
Proof.
  destruct (resolve_sdk_stays_within_buffer
              (P := sample_platform) (scripted healthy)
              (Some "/dotnet") (Some "/work") (Some (scratch 32)) 20 0%nat
              _ _ (surjective_pairing _))
    as (ret & buffer' & w' & Hres & _ & Hcells & _).
  - discriminate.
  - intros cells Hcells. injection Hcells as <-. discriminate.
  - destruct (Hcells (scratch 32) eq_refl) as (cells' & -> & Hlen & Hskip).
    exists ret, cells', w'.
    split; [ exact Hres | ]. split; [ exact Hlen | exact Hskip ].
Defined.

(** A request with an array of 16 cells and a place for the required
    size: the muxer's answer, 0 in this environment, is what comes
    back. *)
Lemma native_search_directories_delegates_witness :
  exists w',
    fst (run (scripted healthy)
           (hostfxr_get_native_search_directories (P := sample_platform)
              1 ["app.dll"] (Some (scratch 16)) 16 (Some 0))
           0%nat)
    = Some (0, w').
Proof.
  destruct (native_search_directories_delegates
              (P := sample_platform) (scripted healthy)
              1 ["app.dll"] (Some (scratch 16)) 16 (Some 0) 0%nat)
    as (info & rc & w' & t & Hrun & _ & Hlast & _).
  - discriminate.
  - discriminate.
  - discriminate.
  - exists w'. rewrite Hrun in *. cbn [fst].
    replace rc with 0; [ reflexivity | ].
    vm_compute in Hrun. congruence.
Defined.
